(** * dotdesktop-cleaner: a shallow embedding of [cleanup.py]

    The development follows the layout of the program:

    - [PyStr]       the [str] methods the program calls
    - [Sim]         a small concrete file system to run the model on
    - [Helper]      [start_privilaged], the elevated line-protocol loop
    - [Scanner]     [find_broken_desktop_files]
    - [Eff]         the state and exception monad of the main process
    - [Client]      [privilaged_subprocess], [remove_file], [edit_file]
    - [Remediator]  [find_and_fix]
    - [SpecReading] [expanduser], which the specification applies
    - [Examples]    concrete worlds, files and runs

    The definitions come first; the properties follow them.

    A Python [str] is a sequence of Unicode code points, modelled as
    [list N].  Exceptions are values of [exn]; a computation that may raise
    returns a sum whose left injection is the exception raised. *)

From stdpp Require Import base list strings gmap.
From Stdlib Require Import NArith Ascii String DecimalString Lia.

Local Open Scope N_scope.

Abbreviation str := (list N).

(** ** Strings *)

Module PyStr.

(** An ASCII literal of the source as a [str]. *)
Definition py (s : string) : str := N_of_ascii <$> list_ascii_of_string s.

(** The line terminator, Python's ["\n"]. *)
Definition nl : str := [10].

(** [str.isspace] for one code point: the code points CPython's
    [_PyUnicode_IsWhitespace] accepts. *)
Definition isspace (c : N) : bool :=
  ((0x09 <=? c) && (c <=? 0x0D)) || ((0x1C <=? c) && (c <=? 0x20))
  || (c =? 0x85) || (c =? 0xA0) || (c =? 0x1680)
  || ((0x2000 <=? c) && (c <=? 0x200A))
  || (c =? 0x2028) || (c =? 0x2029) || (c =? 0x202F) || (c =? 0x205F)
  || (c =? 0x3000).

Fixpoint lstrip (s : str) : str :=
  match s with
  | c :: s' => if isspace c then lstrip s' else s
  | [] => []
  end.

Definition rstrip (s : str) : str := reverse (lstrip (reverse s)).

(** [s.strip()] *)
Definition strip (s : str) : str := rstrip (lstrip s).

(** [s.startswith(p)] *)
Fixpoint startswith (s p : str) {struct p} : bool :=
  match p, s with
  | [], _ => true
  | a :: p', b :: s' => (a =? b) && startswith s' p'
  | _ :: _, [] => false
  end.

(** [s.endswith(p)] *)
Definition endswith (s p : str) : bool := startswith (reverse s) (reverse p).

(** [c in s] for a one-character [c] *)
Definition contains (c : N) (s : str) : bool := existsb (N.eqb c) s.

(** [s.split(sep, 1)] for a one-character [sep]: the text before the first
    [sep] and the remainder, or [s] alone when [sep] does not occur. *)
Fixpoint split1 (sep : N) (s : str) : list str :=
  match s with
  | [] => [[]]
  | c :: s' =>
      if c =? sep then [[]; s']
      else match split1 sep s' with
           | a :: rest => (c :: a) :: rest
           | [] => [[c]]
           end
  end.

(** [s.split(sep, 1)[0]]: the text before the first [sep]. *)
Definition first_line (s : str) : str :=
  match split1 10 s with
  | a :: _ => a
  | [] => []
  end.

(** [s.lower()] on the ASCII letters.  Outside ASCII Python follows the
    Unicode case tables, which this model leaves unchanged; the program only
    compares the result with the ASCII words [env], [q], [quit], [e], [edit],
    [d], [delete], and no code point outside ASCII lowers to a letter of
    those words. *)
Definition lower_char (c : N) : N :=
  if (65 <=? c) && (c <=? 90) then c + 32 else c.

Definition lower (s : str) : str := lower_char <$> s.

(** Equality test of two strings, Python's [==]. *)
Definition eqs (a b : str) : bool := bool_decide (a = b).

End PyStr.

(** ** Exceptions and the operating system *)

Inductive os_error :=
  | FileNotFoundError
  | IsADirectoryError
  | PermissionError
  | BrokenPipeError
  | OtherOSError (errno : N).

Inductive exn :=
  | OSError (e : os_error)
  | KeyError
  | IndexError
  | ValueError
  | ConfigParserError (message : str)
  | EOFError.

(** The file system as the program uses it.  [path_unlink p w] is
    [Path(p).unlink()] run by the current process in world [w]: the world
    without the file, or the [OSError] raised.  [path_exists] is
    [os.path.exists] and [which] is [shutil.which]. *)
Class FileSystem (W : Type) := {
  path_unlink : str -> W -> os_error + W;
  path_exists : str -> W -> bool;
  which : str -> W -> option str
}.

(** A small concrete file system, used to run the model on examples: a
    map from paths to nodes, the paths that lie in directories only an
    elevated process may modify, the paths [shutil.which] resolves, and
    whether the current process is elevated. *)
Module Sim.

Inductive node := File | Dir.

Record world := {
  nodes : gmap str node;
  guarded : list str;
  on_path : list str;
  elevated : bool
}.

Definition unlink (p : str) (w : world) : os_error + world :=
  match nodes w !! p with
  | None => inl FileNotFoundError
  | Some n =>
      if negb (elevated w) && bool_decide (p ∈ guarded w) then inl PermissionError
      else match n with
           | Dir => inl IsADirectoryError
           | File => inr {| nodes := delete p (nodes w); guarded := guarded w;
                            on_path := on_path w; elevated := elevated w |}
           end
  end.

Definition exists_ (p : str) (w : world) : bool :=
  bool_decide (is_Some (nodes w !! p)).

Definition lookup_path (name : str) (w : world) : option str :=
  if bool_decide (name ∈ on_path w) then Some name else None.

#[global] Instance sim_fs : FileSystem world := {
  path_unlink := unlink;
  path_exists := exists_;
  which := lookup_path
}.

End Sim.

(** ** The privileged helper process: [start_privilaged] *)

Module Helper.
Import PyStr.

(** The three fixed-format responses. *)
Definition usage_message : str := py "Must be in the form '[CMD] ...\n'" ++ nl.

Definition not_desktop_message : str := py "ERR Must be a .desktop file." ++ nl.

Definition success_message (entry : str) : str :=
  py "UNLINK " ++ entry ++ py " SUCCESS" ++ nl.

Section Protocol.
Context {W : Type} `{FileSystem W}.

(** [repr] of a string, as the [{command=}] format specifier prints it. *)
Variable repr : str -> str.

Definition unknown_message (command entry : str) : str :=
  py "ERR Unknown: command=" ++ repr command ++ py " entry=" ++ repr entry ++ nl.

(** The helper's state: the file system it acts on, what it has written to
    its standard output (one element per [write], each flushed at once), and
    the paths it has called [unlink] on, in order. *)
Record state := {
  world : W;
  stdout : list str;
  attempts : list str
}.

Definition write (s : str) (st : state) : state :=
  {| world := world st; stdout := stdout st ++ [s]; attempts := attempts st |}.

Definition attempt (p : str) (st : state) : state :=
  {| world := world st; stdout := stdout st; attempts := attempts st ++ [p] |}.

Definition set_world (w : W) (st : state) : state :=
  {| world := w; stdout := stdout st; attempts := attempts st |}.

(** One pass through the body of [while True], for the line [raw] that
    [sys.stdin.readline()] returned: the state at the next [readline], or
    the exception that left the loop. *)
Inductive step_result :=
  | Next (st : state)
  | Raised (e : exn) (st : state).

Definition dispatch (raw : str) (st : state) : step_result :=
  let entry := strip raw in
  if negb (contains 32 entry) then Next (write usage_message st)
  else
    match split1 32 entry with
    | [command; entry] =>
        if eqs command (py "UNLINK") then
          if negb (endswith entry (py ".desktop")) then
            Next (write not_desktop_message st)
          else
            match path_unlink entry (world st) with
            | inl e => Raised (OSError e) (attempt entry st)
            | inr w' =>
                Next (write (success_message entry) (set_world w' (attempt entry st)))
            end
        else Next (write (unknown_message command entry) st)
    | _ => Raised ValueError st
    end.

Definition result_state (r : step_result) : state :=
  match r with
  | Next st | Raised _ st => st
  end.

(** The loop over the lines read so far.  It has no exit of its own: after
    the last line it is back at [readline] ([Reading]), unless an exception
    ended the process ([Died]), leaving the later lines unread. *)
Inductive run :=
  | Reading (st : state)
  | Died (e : exn) (st : state) (unread : list str).

Fixpoint start_privilaged (stdin : list str) (st : state) : run :=
  match stdin with
  | [] => Reading st
  | raw :: rest =>
      match dispatch raw st with
      | Next st' => start_privilaged rest st'
      | Raised e st' => Died e st' rest
      end
  end.

(** The state the loop is in when it waits for a line or has died. *)
Definition last_state (r : run) : state :=
  match r with
  | Reading st => st
  | Died _ st _ => st
  end.

End Protocol.

Arguments state W : clear implicits.
Arguments step_result W : clear implicits.
Arguments run W : clear implicits.

End Helper.

(** ** The scanner: [find_broken_desktop_files] *)

Module Scanner.
Import PyStr.

(** [class Entry]: every attribute but [location] starts as [None]. *)
Record Entry := {
  location : str;
  reason : option str;
  exec : option str;
  full_exec : option str
}.

Definition new_entry (loc : str) : Entry :=
  {| location := loc; reason := None; exec := None; full_exec := None |}.

Definition set_reason (r : str) (e : Entry) : Entry :=
  {| location := location e; reason := Some r; exec := exec e;
     full_exec := full_exec e |}.

Definition set_full_exec (v : str) (e : Entry) : Entry :=
  {| location := location e; reason := reason e; exec := exec e;
     full_exec := Some v |}.

Definition set_exec (v : str) (e : Entry) : Entry :=
  {| location := location e; reason := reason e; exec := Some v;
     full_exec := full_exec e |}.

(** *** The [ConfigParser] object

    Reading the INI syntax is the library's work.  A file is given by what
    the parser makes of it: the sections it defines, in order, each with its
    options (names as [optionxform] leaves them, in lower case) and values. *)
Definition ini_doc := list (str * list (str * str)).

Inductive file_content :=
  | Unreadable                                  (* [read] skips what it cannot open *)
  | Parsed (doc : ini_doc)
  | Malformed (partial : ini_doc) (message : str). (* raises [configparser.Error] *)

Record desktop_file := {
  path : str;
  content : file_content
}.

(** The parser's state: its sections and the [DEFAULT] section. *)
Record config := {
  sections : gmap str (gmap str str);
  defaults : gmap str str
}.

Definition new_config : config := {| sections := ∅; defaults := ∅ |}.

Definition add_options (opts : list (str * str)) (m : gmap str str) : gmap str str :=
  foldl (fun m kv => <[kv.1 := kv.2]> m) m opts.

(** One section of a file being read: its options are added to the section
    of that name, which is created when the parser does not have it yet. *)
Definition read_section (c : config) (sec : str * list (str * str)) : config :=
  if eqs sec.1 (py "DEFAULT") then
    {| sections := sections c; defaults := add_options sec.2 (defaults c) |}
  else
    {| sections :=
         <[sec.1 := add_options sec.2 (default ∅ (sections c !! sec.1))]> (sections c);
       defaults := defaults c |}.

Definition read_doc (doc : ini_doc) (c : config) : config := foldl read_section c doc.

(** [config.read(location)]: the parser afterwards, and the message of the
    [configparser.Error] raised, if any.  The parser is not reset. *)
Definition config_read (f : file_content) (c : config) : config * option str :=
  match f with
  | Unreadable => (c, None)
  | Parsed doc => (read_doc doc c, None)
  | Malformed partial message => (read_doc partial c, Some message)
  end.

(** [config["Desktop Entry"]["Exec"]]; [None] stands for [KeyError]. *)
Definition config_get_exec (c : config) : option str :=
  match sections c !! py "Desktop Entry" with
  | None => None
  | Some sec =>
      match sec !! py "exec" with
      | Some v => Some v
      | None => defaults c !! py "exec"
      end
  end.

(** *** The executable of a command line *)

(** Lines 65 to 68: the token the entry is judged by. *)
Definition resolve_exec (command : list str) : exn + str :=
  match command with
  | [] => inl IndexError
  | c0 :: rest =>
      if eqs (lower c0) (py "env") then
        match List.filter (fun c => negb (contains 61 c)) rest with
        | [] => inl IndexError
        | c :: _ => inr c
        end
      else inr c0
  end.

Definition exec_missing : str := py "Executable does not exist.".
Definition exec_not_on_path : str := py "Executable not found in $PATH.".
Definition no_exec_entry : str := py "No [Desktop Entry].Exec entry found.".

Section Scan.
Context {W : Type} `{FileSystem W}.

(** [shlex.split]; it raises [ValueError] on an unterminated quotation. *)
Variable shlex_split : str -> exn + list str.

Variable w : W.

(** Lines 70 to 76: [Some] the entry with its reason when it is appended to
    [broken], [None] when the executable is found. *)
Definition classify (entry : Entry) (x : str) : option Entry :=
  if startswith x (py "/") || startswith x (py "~") then
    if negb (path_exists x w) then Some (set_reason exec_missing entry)
    else None
  else
    match which x w with
    | None => Some (set_reason exec_not_on_path entry)
    | Some _ => None
    end.

(** The body of the inner [for] for one file: the parser afterwards, and
    either the exception that no handler caught, or the entry appended to
    [broken], if one was. *)
Definition scan_file (f : desktop_file) (c : config) : config * (exn + option Entry) :=
  let entry := new_entry (path f) in
  match config_read (content f) c with
  | (c', Some message) => (c', inr (Some (set_reason (first_line message) entry)))
  | (c', None) =>
      match config_get_exec c' with
      | None => (c', inr (Some (set_reason no_exec_entry entry)))
      | Some v =>
          let entry := set_full_exec (strip v) entry in
          match shlex_split (strip v) with
          | inl e => (c', inl e)
          | inr command =>
              match resolve_exec command with
              | inl e => (c', inl e)
              | inr x => (c', inr (classify (set_exec x entry) x))
              end
          end
      end
  end.

(** The two [for] loops, over the files in the order they are visited. *)
Fixpoint scan (files : list desktop_file) (c : config) (broken : list Entry)
  : exn + list Entry :=
  match files with
  | [] => inr broken
  | f :: rest =>
      match scan_file f c with
      | (_, inl e) => inl e
      | (c', inr None) => scan rest c' broken
      | (c', inr (Some entry)) => scan rest c' (broken ++ [entry])
      end
  end.

Definition find_broken_desktop_files (files : list desktop_file) : exn + list Entry :=
  scan files new_config [].

End Scan.

End Scanner.

(** ** Effects of the main process

    A call of the main process runs on its state and either returns a value,
    raises an exception, or waits for ever on a pipe that delivers nothing. *)

Module Eff.

Inductive outcome (S A : Type) :=
  | Return (a : A) (s : S)
  | Raise (e : exn) (s : S)
  | Blocked (s : S).

Arguments Return {S A} a s.
Arguments Raise {S A} e s.
Arguments Blocked {S A} s.

Definition M (S A : Type) : Type := S -> outcome S A.

Definition ret {S A} (a : A) : M S A := fun s => Return a s.

Definition bind {S A B} (m : M S A) (k : A -> M S B) : M S B :=
  fun s =>
    match m s with
    | Return a s' => k a s'
    | Raise e s' => Raise e s'
    | Blocked s' => Blocked s'
    end.

Definition raise {S A} (e : exn) : M S A := fun s => Raise e s.

Definition modify {S} (f : S -> S) : M S unit := fun s => Return tt (f s).

Definition gets {S A} (f : S -> A) : M S A := fun s => Return (f s) s.

Definition final {S A} (o : outcome S A) : S :=
  match o with
  | Return _ s | Raise _ s | Blocked s => s
  end.

Module Notations.
Notation "'let*' x ':=' c 'in' k" := (bind c (fun x => k))
  (at level 10, x pattern, c at level 100, k at level 200).
End Notations.

End Eff.

(** ** The main process: its state and the helper client *)

Module Client.
Import PyStr Eff Eff.Notations.

(** A [subprocess.Popen] object: the child and the ends of its pipes, each
    [None] when the stream of the child was not redirected. *)
Record Popen := {
  pid : nat;
  stdin : option nat;
  stdout : option nat
}.

(** A child process seen from the parent: its command line, the text the
    parent has written to its input, and what its output will deliver to
    [readline], line by line.  When these lines are used up, [readline]
    returns the empty string if the child has closed its output ([eof]) and
    waits otherwise.  Writing to a child that no longer reads ([gone])
    raises [BrokenPipeError]. *)
Record child := {
  argv : list str;
  received : list str;
  pending : list str;
  eof : bool;
  gone : bool
}.

Section Main.
Context {W : Type} `{FileSystem W}.

(** The state of the main process.
    - [world]: the file system;
    - [launcher]: whether [pkexec] can be started;
    - [behaviour n]: what the [n]-th child created will print, and its
      [eof] and [gone] flags;
    - [children]: the children created so far, oldest first;
    - [memo]: the result [functools.cache] keeps for [privilaged_subprocess];
    - [errors]: the records logged at level [ERROR];
    - [typed]: the lines the user will enter; [printed]: what was written to
      the terminal;
    - [editor_var]: the value of [EDITOR]; [writable]: [os.access] with
      [W_OK]; [editor_run]: the exit status of running a command to its end,
      or the error of starting it. *)
Record state := {
  world : W;
  launcher : bool;
  behaviour : nat -> list str * bool * bool;
  children : list child;
  memo : option Popen;
  errors : list str;
  typed : list str;
  printed : list str;
  editor_var : option str;
  writable : str -> bool;
  editor_run : list str -> os_error + N
}.

Definition set_world (w : W) (s : state) : state :=
  {| world := w; launcher := launcher s; behaviour := behaviour s;
     children := children s; memo := memo s; errors := errors s;
     typed := typed s; printed := printed s; editor_var := editor_var s;
     writable := writable s; editor_run := editor_run s |}.

Definition set_children (cs : list child) (s : state) : state :=
  {| world := world s; launcher := launcher s; behaviour := behaviour s;
     children := cs; memo := memo s; errors := errors s;
     typed := typed s; printed := printed s; editor_var := editor_var s;
     writable := writable s; editor_run := editor_run s |}.

Definition set_memo (m : option Popen) (s : state) : state :=
  {| world := world s; launcher := launcher s; behaviour := behaviour s;
     children := children s; memo := m; errors := errors s;
     typed := typed s; printed := printed s; editor_var := editor_var s;
     writable := writable s; editor_run := editor_run s |}.

Definition set_errors (l : list str) (s : state) : state :=
  {| world := world s; launcher := launcher s; behaviour := behaviour s;
     children := children s; memo := memo s; errors := l;
     typed := typed s; printed := printed s; editor_var := editor_var s;
     writable := writable s; editor_run := editor_run s |}.

Definition set_typed (l : list str) (s : state) : state :=
  {| world := world s; launcher := launcher s; behaviour := behaviour s;
     children := children s; memo := memo s; errors := errors s;
     typed := l; printed := printed s; editor_var := editor_var s;
     writable := writable s; editor_run := editor_run s |}.

Definition set_printed (l : list str) (s : state) : state :=
  {| world := world s; launcher := launcher s; behaviour := behaviour s;
     children := children s; memo := memo s; errors := errors s;
     typed := typed s; printed := l; editor_var := editor_var s;
     writable := writable s; editor_run := editor_run s |}.

(** How the helper stands in [s'] compared with [s]: either the cache and
    the number of processes are as they were, or the cache was empty, is
    filled now, and one process more exists. *)
Definition helper_kept (s s' : state) : Prop :=
  (memo s' = memo s /\ List.length (children s') = List.length (children s))
  \/ (memo s = None /\ is_Some (memo s')
      /\ List.length (children s') = S (List.length (children s))).

(** The parts of the state that only the terminal and the user change. *)
Definition same_terminal (s s' : state) : Prop :=
  typed s' = typed s /\ printed s' = printed s.

(** *** Processes and pipes *)

(** [subprocess.Popen(args, stdout=PIPE, stdin=PIPE, stderr=PIPE, ...)]. *)
Definition popen_piped (args : list str) : M state Popen :=
  fun s =>
    if launcher s then
      let n := List.length (children s) in
      let '(lines, closes, leaves) := behaviour s n in
      Return {| pid := n; stdin := Some n; stdout := Some n |}
             (set_children
                (children s ++ [{| argv := args; received := []; pending := lines;
                                   eof := closes; gone := leaves |}]) s)
    else Raise (OSError FileNotFoundError) s.

(** [pipe.write(text)] on the input of child [n]. *)
Definition pipe_write (n : nat) (text : str) : M state unit :=
  fun s =>
    match children s !! n with
    | None => Raise ValueError s
    | Some c =>
        if gone c then Raise (OSError BrokenPipeError) s
        else Return tt
               (set_children
                  (<[n := {| argv := argv c; received := received c ++ [text];
                             pending := pending c; eof := eof c; gone := gone c |}]>
                     (children s)) s)
    end.

(** [pipe.readline()] on the output of child [n]. *)
Definition pipe_readline (n : nat) : M state str :=
  fun s =>
    match children s !! n with
    | None => Raise ValueError s
    | Some c =>
        match pending c with
        | line :: rest =>
            Return line
              (set_children
                 (<[n := {| argv := argv c; received := received c;
                            pending := rest; eof := eof c; gone := gone c |}]>
                    (children s)) s)
        | [] => if eof c then Return [] s else Blocked s
        end
    end.

(** [logger.error(fmt, arg)]. *)
Definition log_error (text : str) : M state unit :=
  modify (fun s => set_errors (errors s ++ [text]) s).

(** *** [privilaged_subprocess] *)

(** The command line of the helper; [python] and [script] stand for
    [sys.executable] and the absolute path of the program. *)
Variables python script : str.

Definition helper_argv : list str :=
  [py "pkexec"; python; script; py "--privilaged"].

(** The function under [@cache]: a call with the result already kept
    returns it; otherwise the body runs and its result is kept, unless it
    raised. *)
Definition privilaged_subprocess : M state Popen :=
  fun s =>
    match memo s with
    | Some p => Return p s
    | None =>
        (let* p := popen_piped helper_argv in
         let* _ := modify (set_memo (Some p)) in
         ret p) s
    end.

(** A run that calls [privilaged_subprocess] [n] times in a row, with the
    handles the calls returned. *)
Fixpoint call_repeatedly (n : nat) : M state (list Popen) :=
  match n with
  | O => ret []
  | S n' =>
      let* p := privilaged_subprocess in
      let* ps := call_repeatedly n' in
      ret (p :: ps)
  end.

(** *** [remove_file] *)

Definition success_word : str := py "SUCCESS".

(** The [except PermissionError] branch of [remove_file]. *)
Definition unlink_fallback (filename : str) : M state (option bool) :=
  let* p := privilaged_subprocess in
  let command := py "UNLINK " ++ filename in
  let* _ := match stdin p with
            | Some fd => pipe_write fd (command ++ nl)
            | None => ret tt
            end in
  match stdout p with
  | Some fd =>
      let* line := pipe_readline fd in
      let ret_ := strip line in
      if negb (endswith ret_ success_word) then
        let* _ := log_error (py "Failed to unlink file. " ++ ret_) in
        ret (Some false)
      else ret (Some true)
  | None => ret None
  end.

(** [remove_file(filename)]: [Some b] for the boolean returned, [None] for
    the implicit [None] at the end of the function. *)
Definition remove_file (filename : str) : M state (option bool) :=
  fun s =>
    match path_unlink filename (world s) with
    | inr w' => Return (Some true) (set_world w' s)
    | inl PermissionError => unlink_fallback filename s
    | inl e => Raise (OSError e) s
    end.

(** *** [edit_file] *)

Definition DEFAULT_EDITOR : str := py "nano".

Definition edit_file (filename : str) : M state N :=
  fun s =>
    let args := [default DEFAULT_EDITOR (editor_var s); filename] in
    let args := if negb (writable s filename) then py "pkexec" :: args else args in
    match editor_run s args with
    | inl e => Raise (OSError e) s
    | inr returncode => Return returncode s
    end.

End Main.

Arguments state W : clear implicits.

End Client.

(** ** The interactive remediator: [find_and_fix] *)

Module Remediator.
Import PyStr Eff Eff.Notations Scanner Client.

(** [str(n)] for a count. *)
Definition decimal (n : nat) : str :=
  py (DecimalString.NilEmpty.string_of_uint (Nat.to_uint n)).

(** How an f-string shows an attribute that may be [None]. *)
Definition shown (v : option str) : str := default (py "None") v.

(** The box-drawing characters of the report. *)
Definition corner_top : str := [0x256D; 0x2500].
Definition bar : str := [0x2502].
Definition tee : str := [0x251C; 0x2500].
Definition corner_bottom : str := [0x2570; 0x2500].

Definition prompt : str :=
  corner_bottom ++ py " [d]elete, [e]dit, [q]uit, or [i]gnore (default):".

Definition found_line (n : nat) : str :=
  decimal n ++ py " potentially bad .desktop files were found.".
Definition deleted_line (n : nat) : str := decimal n ++ py " deleted.".
Definition edited_line (n : nat) : str := decimal n ++ py " edited.".
Definition none_found_line : str := py "No broken .desktop files were found.".

Section Run.
Context {W : Type} `{FileSystem W}.

Variable shlex_split : str -> exn + list str.
Variables python script : str.

(** [Path(location).relative_to(Path.home())]; [None] for [ValueError]. *)
Variable relative_to_home : str -> option str.

(** [print(text)]: the text and a newline. *)
Definition print (text : str) : M (state W) unit :=
  modify (fun s => set_printed (printed s ++ [text ++ nl]) s).

(** [input(prompt)]: the prompt is written, a line is read; at the end of
    the input [EOFError] is raised. *)
Definition input (text : str) : M (state W) str :=
  fun s =>
    let s' := set_printed (printed s ++ [text]) s in
    match typed s with
    | line :: rest => Return line (set_typed rest s')
    | [] => Raise EOFError s'
    end.

(** Lines 170 to 181: the report block of one entry. *)
Definition report (entry : Entry) : M (state W) unit :=
  let* _ := print [] in
  let* _ := match relative_to_home (location entry) with
            | Some rel => print (corner_top ++ py " ~/" ++ rel)
            | None => print (corner_top ++ py " " ++ location entry)
            end in
  let* _ := print bar in
  let* _ := match full_exec entry with
            | Some v => print (tee ++ py " Exec String " ++ v)
            | None => ret tt
            end in
  let* _ := if negb (bool_decide (full_exec entry = exec entry))
            then print (tee ++ py " Executable  " ++ shown (exec entry))
            else ret tt in
  let* _ := print (tee ++ py " Problem     " ++ shown (reason entry)) in
  print bar.

(** The [for] loop of [find_and_fix], from the entries still to visit and
    the two counters to the counters when the loop is left. *)
Fixpoint visit (entries : list Entry) (delete_count edit_count : nat)
  : M (state W) (nat * nat) :=
  match entries with
  | [] => ret (delete_count, edit_count)
  | entry :: rest =>
      let* _ := report entry in
      let* answer := input prompt in
      let resp := lower answer in
      if eqs resp (py "q") || eqs resp (py "quit") then
        ret (delete_count, edit_count)
      else if eqs resp (py "e") || eqs resp (py "edit") then
        let* returncode := edit_file (location entry) in
        visit rest delete_count
              (if returncode =? 0 then S edit_count else edit_count)
      else if eqs resp (py "d") || eqs resp (py "delete") then
        let* removed := remove_file python script (location entry) in
        visit rest
              (match removed with Some true => S delete_count | _ => delete_count end)
              edit_count
      else visit rest delete_count edit_count
  end.

(** Lines 192 to 198: what is printed after the loop. *)
Definition totals (found delete_count edit_count : nat) : M (state W) unit :=
  let* _ := print [] in
  let* _ := print (found_line found) in
  let* _ := if Nat.ltb 0 delete_count then print (deleted_line delete_count)
            else ret tt in
  let* _ := if Nat.ltb 0 edit_count then print (edited_line edit_count)
            else ret tt in
  print [].

(** The part of [find_and_fix] after the scan, for its result [entries]. *)
Definition fix_entries (entries : list Entry) : M (state W) unit :=
  if Nat.eqb (List.length entries) 0 then print none_found_line
  else
    let* counts := visit entries 0%nat 0%nat in
    totals (List.length entries) counts.1 counts.2.

Definition find_and_fix (files : list desktop_file) : M (state W) unit :=
  fun s =>
    match find_broken_desktop_files shlex_split (world s) files with
    | inl e => Raise e s
    | inr entries => fix_entries entries s
    end.

End Run.

End Remediator.

(** ** The specification's reading of the path test

    The specification tests the expanded form of a token that starts with
    [~].  [expanduser home p] follows [os.path.expanduser] for a user whose
    home directory is [home]: a leading [~] that stands alone or before [/]
    is replaced by [home]; any other string is returned as it is. *)

Module SpecReading.
Import PyStr.

Definition expanduser (home p : str) : str :=
  match p with
  | 126 :: [] => home
  | 126 :: 47 :: rest => home ++ 47 :: rest
  | _ => p
  end.

End SpecReading.

(** ** Example data

    Concrete worlds and inputs on which the model is run. *)

Module Examples.
Import PyStr.

(** [repr] of a string of printable ASCII characters that holds no quote
    and no backslash: the string between single quotes. *)
Definition quoted (s : str) : str := py "'" ++ s ++ py "'".

(** A file system seen by the elevated helper. *)
Definition root_world : Sim.world :=
  {| Sim.nodes :=
       <[py "/usr/share/applications/old.desktop" := Sim.File]>
         (<[py "/usr/share/applications/dir.desktop" := Sim.Dir]>
            (<[py "/tmp/notes.txt" := Sim.File]> ∅));
     Sim.guarded := [py "/usr/share/applications/old.desktop";
                     py "/usr/share/applications/dir.desktop"];
     Sim.on_path := [];
     Sim.elevated := true |}.

Definition helper0 : Helper.state Sim.world :=
  {| Helper.world := root_world; Helper.stdout := []; Helper.attempts := [] |}.

(** [root_world] once [/usr/share/applications/old.desktop] is deleted. *)
Definition root_world_after : Sim.world :=
  {| Sim.nodes := delete (py "/usr/share/applications/old.desktop") (Sim.nodes root_world);
     Sim.guarded := Sim.guarded root_world;
     Sim.on_path := Sim.on_path root_world;
     Sim.elevated := true |}.

(** A session of the helper: a malformed line, an unknown command, a
    request for a file that is no desktop file, a request that succeeds, a
    request for a directory, and a request that is never read. *)
Definition session : list str :=
  [py "PING" ++ nl;
   py "STAT /usr/share/applications/old.desktop" ++ nl;
   py "UNLINK /tmp/notes.txt" ++ nl;
   py "UNLINK /usr/share/applications/old.desktop" ++ nl;
   py "UNLINK /usr/share/applications/dir.desktop" ++ nl;
   py "UNLINK /usr/share/applications/old.desktop" ++ nl].

(** [shlex.split] on a string that holds no quote and no backslash: the
    words between runs of blanks, tabs, carriage returns and newlines. *)
Definition blank (c : N) : bool :=
  (c =? 32) || (c =? 9) || (c =? 13) || (c =? 10).

Definition close_word (cur : str) (acc : list str) : list str :=
  match cur with
  | [] => acc
  | _ => acc ++ [cur]
  end.

Fixpoint words_from (s cur : str) (acc : list str) : list str :=
  match s with
  | [] => close_word cur acc
  | c :: s' =>
      if blank c then words_from s' [] (close_word cur acc)
      else words_from s' (cur ++ [c]) acc
  end.

Definition words (s : str) : exn + list str := inr (words_from s [] []).

(** The file system of a user whose home directory is [/home/u]. *)
Definition home : str := py "/home/u".

Definition user_world : Sim.world :=
  {| Sim.nodes :=
       <[py "/bin/true" := Sim.File]>
         (<[py "/home/u/bin/tool" := Sim.File]>
            (<[py "/usr/share/applications/old.desktop" := Sim.File]>
               (<[py "/home/u/.local/share/applications/mine.desktop" := Sim.File]> ∅)));
     Sim.guarded := [py "/usr/share/applications/old.desktop"];
     Sim.on_path := [py "true"; py "sh"];
     Sim.elevated := false |}.

Definition desktop_entry (opts : list (str * str)) : Scanner.file_content :=
  Scanner.Parsed [(py "Desktop Entry", opts)].

(** [a.desktop] has an [Exec] key, [b.desktop] has the section without the
    key, [c.desktop] has no section at all. *)
Definition a_desktop : Scanner.desktop_file :=
  {| Scanner.path := py "/usr/share/applications/a.desktop";
     Scanner.content := desktop_entry [(py "name", py "A"); (py "exec", py "/bin/true")] |}.

Definition b_desktop : Scanner.desktop_file :=
  {| Scanner.path := py "/usr/share/applications/b.desktop";
     Scanner.content := desktop_entry [(py "name", py "B")] |}.

Definition c_desktop : Scanner.desktop_file :=
  {| Scanner.path := py "/usr/share/applications/c.desktop";
     Scanner.content := Scanner.Parsed [] |}.

(** [Exec=sh -c true], found on the search path, [Exec=oldtool --start],
    not found, and a file the parser rejects. *)
Definition sh_desktop : Scanner.desktop_file :=
  {| Scanner.path := py "/usr/share/applications/sh.desktop";
     Scanner.content := desktop_entry [(py "name", py "Shell"); (py "exec", py "sh -c true")] |}.

Definition oldtool_desktop : Scanner.desktop_file :=
  {| Scanner.path := py "/usr/share/applications/old.desktop";
     Scanner.content := desktop_entry [(py "exec", py " oldtool --start "); (py "icon", py "old")] |}.

Definition garbled_desktop : Scanner.desktop_file :=
  {| Scanner.path := py "/usr/share/applications/garbled.desktop";
     Scanner.content :=
       Scanner.Malformed []
         (py "File contains no section headers." ++ nl
          ++ py "file: '/usr/share/applications/garbled.desktop', line: 1" ++ nl
          ++ py "'Exec=foo\n'") |}.

(** [Exec=~/bin/tool]: the file of that name exists in the home directory. *)
Definition tilde_desktop : Scanner.desktop_file :=
  {| Scanner.path := py "/usr/share/applications/tool.desktop";
     Scanner.content := desktop_entry [(py "exec", py "~/bin/tool --quiet")] |}.

(** [Exec=] with nothing after it, and [Exec=env FOO=bar BAZ=1]. *)
Definition empty_exec_desktop : Scanner.desktop_file :=
  {| Scanner.path := py "/usr/share/applications/empty.desktop";
     Scanner.content := desktop_entry [(py "exec", [])] |}.

Definition env_only_desktop : Scanner.desktop_file :=
  {| Scanner.path := py "/usr/share/applications/envonly.desktop";
     Scanner.content := desktop_entry [(py "exec", py "env FOO=bar BAZ=1")] |}.

(** The main process of that user.  [pkexec] can be started; the helper
    it starts answers the first request with a success line and the second
    with an error line. *)
Definition main0 : Client.state Sim.world :=
  {| Client.world := user_world;
     Client.launcher := true;
     Client.behaviour := fun _ =>
       ([py "UNLINK /usr/share/applications/old.desktop SUCCESS" ++ nl;
         py "ERR Must be a .desktop file." ++ nl], false, false);
     Client.children := [];
     Client.memo := None;
     Client.errors := [];
     Client.typed := [];
     Client.printed := [];
     Client.editor_var := None;
     Client.writable := fun p => negb (bool_decide (p ∈ Sim.guarded user_world));
     Client.editor_run := fun _ => inr 0 |}.

Definition python : str := py "/usr/bin/python".
Definition script : str := py "/opt/cleanup.py".

(** The handle, the child and the state after the first call of
    [privilaged_subprocess] in [main0]. *)
Definition first_handle : Client.Popen :=
  {| Client.pid := 0; Client.stdin := Some 0%nat; Client.stdout := Some 0%nat |}.

Definition first_child : Client.child :=
  {| Client.argv := [py "pkexec"; python; script; py "--privilaged"];
     Client.received := [];
     Client.pending := [py "UNLINK /usr/share/applications/old.desktop SUCCESS" ++ nl;
                        py "ERR Must be a .desktop file." ++ nl];
     Client.eof := false; Client.gone := false |}.

Definition main1 : Client.state Sim.world :=
  Client.set_memo (Some first_handle) (Client.set_children [first_child] main0).

(** The main process with a cached helper that has taken no request yet
    and whose output has ended, and with one that no longer reads. *)
Definition ended_child : Client.child :=
  {| Client.argv := [py "pkexec"; python; script; py "--privilaged"];
     Client.received := []; Client.pending := [];
     Client.eof := true; Client.gone := false |}.

Definition gone_child : Client.child :=
  {| Client.argv := [py "pkexec"; python; script; py "--privilaged"];
     Client.received := []; Client.pending := [];
     Client.eof := true; Client.gone := true |}.

Definition main_ended : Client.state Sim.world :=
  Client.set_children [ended_child] main1.

Definition main_gone : Client.state Sim.world :=
  Client.set_children [gone_child] main1.

(** [relative_to] the home directory [/home/u], on paths written without
    redundant separators. *)
Definition home_relative (p : str) : option str :=
  if startswith p (home ++ py "/") then Some (drop (List.length home + 1) p)
  else None.

(** Entries as the scanner reports them. *)
Definition broken_old : Scanner.Entry :=
  {| Scanner.location := py "/usr/share/applications/old.desktop";
     Scanner.reason := Some Scanner.exec_not_on_path;
     Scanner.exec := Some (py "oldtool");
     Scanner.full_exec := Some (py "oldtool --start") |}.

Definition broken_mine : Scanner.Entry :=
  {| Scanner.location := py "/home/u/.local/share/applications/mine.desktop";
     Scanner.reason := Some Scanner.exec_missing;
     Scanner.exec := Some (py "/opt/mine/run");
     Scanner.full_exec := Some (py "/opt/mine/run") |}.

Definition broken_b : Scanner.Entry :=
  {| Scanner.location := py "/usr/share/applications/b.desktop";
     Scanner.reason := Some Scanner.no_exec_entry;
     Scanner.exec := None;
     Scanner.full_exec := None |}.

(** The user presses return at the only prompt. *)
Definition user_ignores : Client.state Sim.world := Client.set_typed [[]] main0.

(** The user passes over three entries; a fourth answer is not asked for. *)
Definition user_passes : Client.state Sim.world :=
  Client.set_typed [[]; py "x"; py "Ignore"; py "d"] main0.

(** The user quits at the first entry. *)
Definition user_quits : Client.state Sim.world :=
  Client.set_typed [py "QUIT"; py "d"] main0.

(** The user deletes the first entry, edits the second and quits at the
    third. *)
Definition user_acts : Client.state Sim.world :=
  Client.set_typed [py "d"; py "E"; py "Quit"] main0.

End Examples.

(** * Properties *)

Import PyStr.

(** ** Strings *)

Lemma startswith_app (p t : str) : startswith (p ++ t) p = true.
Proof.
  induction p as [|a p IH]; simpl; [done|].
  by rewrite N.eqb_refl, IH.
Qed.

Lemma startswith_inv (s p : str) :
  startswith s p = true -> exists t, s = p ++ t.
Proof.
  revert s; induction p as [|a p IH]; intros s Hs.
  - by exists s.
  - destruct s as [|b s]; simpl in Hs; [done|].
    apply andb_true_iff in Hs as [Hab Hs].
    apply N.eqb_eq in Hab as ->.
    destruct (IH _ Hs) as [t ->]. by exists t.
Qed.

Lemma startswith_spec (s p : str) :
  startswith s p = true <-> exists t, s = p ++ t.
Proof.
  split; [apply startswith_inv|]. intros [t ->]. apply startswith_app.
Qed.

Lemma endswith_spec (s p : str) :
  endswith s p = true <-> exists t, s = t ++ p.
Proof.
  unfold endswith. rewrite startswith_spec. split.
  - intros [t Ht]. exists (reverse t).
    apply (f_equal reverse) in Ht.
    by rewrite reverse_involutive, reverse_app, reverse_involutive in Ht.
  - intros [t ->]. exists (reverse t). by rewrite reverse_app.
Qed.

Lemma endswith_false (s p : str) :
  endswith s p = false <-> ~ exists t, s = t ++ p.
Proof.
  rewrite <- endswith_spec. destruct (endswith s p); naive_solver.
Qed.

Lemma contains_spec (c : N) (s : str) : contains c s = true <-> c ∈ s.
Proof.
  unfold contains. rewrite existsb_exists. split.
  - intros (x & Hin & Hx). apply N.eqb_eq in Hx as ->.
    by apply list_elem_of_In.
  - intros Hin. exists c. split; [by apply list_elem_of_In|apply N.eqb_refl].
Qed.

Lemma contains_false (c : N) (s : str) : contains c s = false <-> c ∉ s.
Proof.
  rewrite <- contains_spec. destruct (contains c s); naive_solver.
Qed.

Lemma absent_by_contains (c : N) (s : str) : contains c s = false -> c ∉ s.
Proof. apply contains_false. Qed.

Lemma eqs_true (a b : str) : eqs a b = true <-> a = b.
Proof. unfold eqs. apply bool_decide_eq_true. Qed.

Lemma eqs_false (a b : str) : eqs a b = false <-> a <> b.
Proof. unfold eqs. apply bool_decide_eq_false. Qed.

Lemma eqs_refl (a : str) : eqs a a = true.
Proof. by apply eqs_true. Qed.

(** Splitting at the first separator. *)
Lemma split1_first (sep : N) (a b : str) :
  sep ∉ a -> split1 sep (a ++ sep :: b) = [a; b].
Proof.
  induction a as [|c a IH]; intros Hna; simpl.
  - by rewrite N.eqb_refl.
  - apply not_elem_of_cons in Hna as [Hc Ha].
    destruct (N.eqb_spec c sep) as [->|_]; [done|].
    by rewrite IH.
Qed.

(** Stripping removes nothing from the inside of a string. *)
Lemma lstrip_suffix (s : str) : exists w, s = w ++ lstrip s.
Proof.
  induction s as [|c s [w IH]]; simpl.
  - by exists [].
  - destruct (isspace c).
    + exists (c :: w). simpl. by rewrite <- IH.
    + by exists [].
Qed.

Lemma strip_infix (s : str) : exists w1 w2, s = w1 ++ strip s ++ w2.
Proof.
  unfold strip, rstrip.
  destruct (lstrip_suffix s) as [w1 H1].
  destruct (lstrip_suffix (reverse (lstrip s))) as [w2 H2].
  exists w1, (reverse w2).
  apply (f_equal reverse) in H2.
  rewrite reverse_involutive, reverse_app in H2.
  by rewrite <- H2.
Qed.

Lemma strip_not_elem (c : N) (s : str) : c ∉ s -> c ∉ strip s.
Proof.
  intros Hn Hin. apply Hn.
  destruct (strip_infix s) as (w1 & w2 & Hs). rewrite Hs.
  rewrite !elem_of_app. auto.
Qed.

(** ** The privileged helper *)

Section HelperFacts.
Import Helper.
Context {W : Type} `{FileSystem W}.
Variable repr : str -> str.

(** A line that starts with [UNLINK] and a space is split into the command
    [UNLINK] and the rest. *)
Lemma unlink_line_parsed (entry : str) :
  contains 32 (py "UNLINK " ++ entry) = true
  /\ split1 32 (py "UNLINK " ++ entry) = [py "UNLINK"; entry].
Proof. split; reflexivity. Qed.

(** C3 (as amended): a line without a space character makes the helper
    write the usage message, which is the text
    [Must be in the form '[CMD] ...\n'] (a backslash and the letter n stand
    before the closing quote) followed by a newline; the file system is left
    as it was, no deletion is attempted, and the loop goes on with the next
    line. *)
Theorem malformed_line_usage (raw : str) (st : state W) (rest : list str) :
  32 ∉ raw ->
  dispatch repr raw st =
    Next {| world := world st;
            stdout := stdout st ++ [py "Must be in the form '[CMD] ...\n'" ++ [10]];
            attempts := attempts st |}
  /\ start_privilaged repr (raw :: rest) st =
       start_privilaged repr rest
         {| world := world st;
            stdout := stdout st ++ [py "Must be in the form '[CMD] ...\n'" ++ [10]];
            attempts := attempts st |}.
Proof.
  intros Hraw.
  assert (Hd : dispatch repr raw st = Next (write usage_message st)).
  { unfold dispatch.
    apply (strip_not_elem 32) in Hraw. apply contains_false in Hraw.
    by rewrite Hraw. }
  split; [exact Hd|]. simpl. by rewrite Hd.
Qed.

(** C2: a line whose command is [UNLINK] and whose argument does not end
    with [.desktop] makes the helper write exactly
    [ERR Must be a .desktop file.] and a newline; it calls [unlink] on
    nothing, leaves the file system as it was, and goes on with the next
    line. *)
Theorem unlink_non_desktop_rejected (raw entry : str) (st : state W) (rest : list str) :
  strip raw = py "UNLINK " ++ entry ->
  ~ (exists stem, entry = stem ++ py ".desktop") ->
  dispatch repr raw st =
    Next {| world := world st;
            stdout := stdout st ++ [py "ERR Must be a .desktop file." ++ [10]];
            attempts := attempts st |}
  /\ start_privilaged repr (raw :: rest) st =
       start_privilaged repr rest
         {| world := world st;
            stdout := stdout st ++ [py "ERR Must be a .desktop file." ++ [10]];
            attempts := attempts st |}.
Proof.
  intros Hline Hext.
  assert (Hd : dispatch repr raw st = Next (write not_desktop_message st)).
  { unfold dispatch. rewrite Hline.
    destruct (unlink_line_parsed entry) as [-> ->]. simpl negb. cbv iota.
    rewrite eqs_refl.
    apply endswith_false in Hext. by rewrite Hext. }
  split; [exact Hd|]. simpl. by rewrite Hd.
Qed.

(** C9: when [unlink] raises for a well-formed [UNLINK <path>.desktop]
    request, the exception leaves the loop: the helper ends with that
    exception, has written nothing for the request, and reads none of the
    later lines. *)
Theorem unlink_error_is_fatal
    (raw stem : str) (err : os_error) (st : state W) (rest : list str) :
  strip raw = py "UNLINK " ++ stem ++ py ".desktop" ->
  path_unlink (stem ++ py ".desktop") (world st) = inl err ->
  start_privilaged repr (raw :: rest) st =
    Died (OSError err)
         {| world := world st;
            stdout := stdout st;
            attempts := attempts st ++ [stem ++ py ".desktop"] |}
         rest.
Proof.
  intros Hline Herr.
  simpl. unfold dispatch. rewrite Hline.
  destruct (unlink_line_parsed (stem ++ py ".desktop")) as [-> ->].
  simpl negb. cbv iota. rewrite eqs_refl.
  assert (Hend : endswith (stem ++ py ".desktop") (py ".desktop") = true)
    by (apply endswith_spec; by exists stem).
  rewrite Hend. simpl negb. cbv iota.
  by rewrite Herr.
Qed.

End HelperFacts.

Section HelperExamples.
Import Helper Examples.

(** The theorem for C3 at the line [PING]. *)
Lemma malformed_line_usage_witness :
  (32 ∉ py "PING" ++ [10])
  /\ start_privilaged quoted [py "PING" ++ [10]] helper0 =
       Reading {| world := root_world;
                  stdout := [py "Must be in the form '[CMD] ...\n'" ++ [10]];
                  attempts := [] |}.
Proof.
  assert (Hraw : 32 ∉ (py "PING" ++ [10])) by (apply absent_by_contains; reflexivity).
  split; [exact Hraw|].
  destruct (malformed_line_usage quoted (py "PING" ++ [10]) helper0 [] Hraw) as [_ ->].
  reflexivity.
Defined.

(** C3 as the specification words it fails: for the line [PING], which
    holds no space, what the helper writes is not the text
    [Must be in the form '[CMD] ...'] followed by a newline. *)
Lemma usage_message_counterexample :
  (32 ∉ py "PING" ++ [10])
  /\ stdout (result_state (dispatch quoted (py "PING" ++ [10]) helper0))
     <> [py "Must be in the form '[CMD] ...'" ++ [10]].
Proof.
  split; [apply absent_by_contains; reflexivity|].
  vm_compute. discriminate.
Qed.

(** The theorem for C2 at the request [UNLINK /tmp/notes.txt]. *)
Lemma unlink_non_desktop_rejected_witness :
  strip (py "UNLINK /tmp/notes.txt" ++ [10]) = py "UNLINK " ++ py "/tmp/notes.txt"
  /\ ~ (exists stem, py "/tmp/notes.txt" = stem ++ py ".desktop")
  /\ start_privilaged quoted [py "UNLINK /tmp/notes.txt" ++ [10]] helper0 =
       Reading {| world := root_world;
                  stdout := [py "ERR Must be a .desktop file." ++ [10]];
                  attempts := [] |}.
Proof.
  assert (Hline : strip (py "UNLINK /tmp/notes.txt" ++ [10])
                  = py "UNLINK " ++ py "/tmp/notes.txt") by reflexivity.
  assert (Hext : ~ (exists stem, py "/tmp/notes.txt" = stem ++ py ".desktop"))
    by (apply endswith_false; reflexivity).
  split; [exact Hline|]. split; [exact Hext|].
  destruct (unlink_non_desktop_rejected quoted _ _ helper0 [] Hline Hext) as [_ ->].
  reflexivity.
Defined.

(** The theorem for C9 at a path that is a directory: the helper dies with
    [IsADirectoryError], nothing is written, the next request is not read. *)
Lemma unlink_error_is_fatal_witness :
  strip (py "UNLINK /usr/share/applications/dir.desktop" ++ [10])
    = py "UNLINK " ++ py "/usr/share/applications/dir" ++ py ".desktop"
  /\ path_unlink (py "/usr/share/applications/dir" ++ py ".desktop") root_world
     = inl IsADirectoryError
  /\ start_privilaged quoted
       [py "UNLINK /usr/share/applications/dir.desktop" ++ [10];
        py "UNLINK /usr/share/applications/old.desktop" ++ [10]] helper0 =
     Died (OSError IsADirectoryError)
          {| world := root_world; stdout := [];
             attempts := [py "/usr/share/applications/dir.desktop"] |}
          [py "UNLINK /usr/share/applications/old.desktop" ++ [10]].
Proof.
  split; [reflexivity|]. split; [reflexivity|].
  exact (unlink_error_is_fatal quoted
           (py "UNLINK /usr/share/applications/dir.desktop" ++ [10])
           (py "/usr/share/applications/dir") IsADirectoryError helper0
           [py "UNLINK /usr/share/applications/old.desktop" ++ [10]]
           eq_refl eq_refl).
Defined.

(** The same for a path that does not exist. *)
Example unlink_missing_file_is_fatal :
  start_privilaged quoted [py "UNLINK /usr/share/applications/gone.desktop" ++ [10]]
    helper0
  = Died (OSError FileNotFoundError)
         {| world := root_world; stdout := [];
            attempts := [py "/usr/share/applications/gone.desktop"] |} [].
Proof. reflexivity. Qed.

(** A request that succeeds, for comparison: the file is removed and the
    success line is written. *)
Example unlink_request_succeeds :
  match start_privilaged quoted
          [py "UNLINK /usr/share/applications/old.desktop" ++ [10]] helper0 with
  | Reading st =>
      stdout st = [py "UNLINK /usr/share/applications/old.desktop SUCCESS" ++ [10]]
      /\ path_exists (py "/usr/share/applications/old.desktop") (world st) = false
  | Died _ _ _ => False
  end.
Proof. vm_compute. done. Qed.

End HelperExamples.

(** ** The scanner *)

Section ResolveFacts.
Import Scanner.

(** The filter of line 66 returns the first token without [=]. *)
Lemma filter_first_plain (pre post : list str) (x : str) :
  Forall (fun c => 61 ∈ c) pre -> 61 ∉ x ->
  List.filter (fun c => negb (contains 61 c)) (pre ++ x :: post)
  = x :: List.filter (fun c => negb (contains 61 c)) post.
Proof.
  intros Hpre Hx. induction Hpre as [|c pre Hc _ IH]; simpl.
  - apply contains_false in Hx. by rewrite Hx.
  - apply contains_spec in Hc. by rewrite Hc.
Qed.

Lemma filter_all_assignments (args : list str) :
  Forall (fun c => 61 ∈ c) args ->
  List.filter (fun c => negb (contains 61 c)) args = [].
Proof.
  induction 1 as [|c args Hc _ IH]; simpl; [done|].
  apply contains_spec in Hc. by rewrite Hc.
Qed.

(** C6: when the first token lowers to [env], the executable is the first
    later token that holds no [=]; for any other first token, the executable
    is that first token. *)
Theorem resolve_exec_spec (c0 : str) (rest : list str) :
  (lower c0 = py "env" ->
   forall (pre post : list str) (x : str),
     rest = pre ++ x :: post ->
     Forall (fun c => 61 ∈ c) pre -> 61 ∉ x ->
     resolve_exec (c0 :: rest) = inr x)
  /\ (lower c0 <> py "env" -> resolve_exec (c0 :: rest) = inr c0).
Proof.
  split.
  - intros Henv pre post x -> Hpre Hx. simpl.
    apply eqs_true in Henv. rewrite Henv.
    by rewrite filter_first_plain.
  - intros Hne. simpl. apply eqs_false in Hne. by rewrite Hne.
Qed.

(** The theorem for C6 at [Env FOO=bar A=b /path/to/real --flag X=1] and at
    [/usr/bin/env-wrapper env FOO=bar]. *)
Lemma resolve_exec_spec_witness :
  (lower (py "Env") = py "env"
   /\ [py "FOO=bar"; py "A=b"; py "/path/to/real"; py "--flag"; py "X=1"]
      = [py "FOO=bar"; py "A=b"] ++ py "/path/to/real" :: [py "--flag"; py "X=1"]
   /\ Forall (fun c => 61 ∈ c) [py "FOO=bar"; py "A=b"]
   /\ (61 ∉ py "/path/to/real")
   /\ resolve_exec
        [py "Env"; py "FOO=bar"; py "A=b"; py "/path/to/real"; py "--flag"; py "X=1"]
      = inr (py "/path/to/real"))
  /\ (lower (py "/usr/bin/env-wrapper") <> py "env"
      /\ resolve_exec [py "/usr/bin/env-wrapper"; py "env"; py "FOO=bar"]
         = inr (py "/usr/bin/env-wrapper")).
Proof.
  assert (H1 : lower (py "Env") = py "env") by reflexivity.
  assert (H2 : Forall (fun c => 61 ∈ c) [py "FOO=bar"; py "A=b"])
    by (repeat constructor; apply contains_spec; reflexivity).
  assert (H3 : 61 ∉ py "/path/to/real") by (apply absent_by_contains; reflexivity).
  assert (H4 : lower (py "/usr/bin/env-wrapper") <> py "env") by discriminate.
  split.
  - repeat (split; [done|]).
    exact (proj1 (resolve_exec_spec (py "Env") _) H1
             [py "FOO=bar"; py "A=b"] [py "--flag"; py "X=1"] (py "/path/to/real")
             eq_refl H2 H3).
  - split; [exact H4|].
    exact (proj2 (resolve_exec_spec (py "/usr/bin/env-wrapper")
                    [py "env"; py "FOO=bar"]) H4).
Defined.

(** Which first tokens lower to [env]. *)
Lemma lower_env_cases (c0 : str) :
  lower c0 = py "env" <->
  c0 ∈ [py "env"; py "enV"; py "eNv"; py "eNV";
        py "Env"; py "EnV"; py "ENv"; py "ENV"].
Proof.
  assert (Hc : forall c t, lower_char c = t -> 97 <= t <= 122 ->
                           c = t \/ c = t - 32).
  { intros c t Hl Ht. unfold lower_char in Hl.
    destruct ((65 <=? c) && (c <=? 90)) eqn:E; lia. }
  split.
  - intros Hl.
    destruct c0 as [|a [|b [|c [|d l]]]]; try discriminate Hl.
    injection Hl as Ha Hb Hc'.
    destruct (Hc _ _ Ha ltac:(vm_compute; split; discriminate)) as [-> | ->];
    destruct (Hc _ _ Hb ltac:(vm_compute; split; discriminate)) as [-> | ->];
    destruct (Hc _ _ Hc' ltac:(vm_compute; split; discriminate)) as [-> | ->];
    vm_compute; repeat first [apply list_elem_of_here | apply list_elem_of_further].
  - intros Hin. repeat (apply elem_of_cons in Hin as [-> | Hin]; [reflexivity|]).
    by apply elem_of_nil in Hin.
Qed.

End ResolveFacts.

Section ScanFacts.
Import Scanner.
Context {W : Type} `{FileSystem W}.
Variable shlex_split : str -> exn + list str.
Variable w : W.

(** An empty command line, and [env] followed by assignments only, have no
    executable: the index is out of range. *)
Lemma resolve_exec_degenerate (command : list str) :
  (command = []
   \/ exists c0 args, command = c0 :: args /\ lower c0 = py "env"
                      /\ Forall (fun a => 61 ∈ a) args) ->
  resolve_exec command = inl IndexError.
Proof.
  intros [-> | (c0 & args & -> & Henv & Hargs)]; [done|].
  simpl. apply eqs_true in Henv. rewrite Henv.
  by rewrite filter_all_assignments.
Qed.

(** C10: a file that is read without error and whose [Exec] value splits
    into no token at all, or into [env] followed only by tokens that hold
    [=], makes the scan end with [IndexError]: no handler of the loop takes
    it, the files after it are not visited and the entries found before it
    are not returned. *)
Theorem degenerate_exec_aborts_scan
    (f : desktop_file) (c c' : config) (v : str) (command : list str)
    (rest : list desktop_file) (broken : list Entry) :
  config_read (content f) c = (c', None) ->
  config_get_exec c' = Some v ->
  shlex_split (strip v) = inr command ->
  (command = []
   \/ exists c0 args, command = c0 :: args /\ lower c0 = py "env"
                      /\ Forall (fun a => 61 ∈ a) args) ->
  scan shlex_split w (f :: rest) c broken = inl IndexError.
Proof.
  intros Hread Hget Hsplit Hdeg.
  simpl. unfold scan_file. rewrite Hread, Hget, Hsplit.
  by rewrite (resolve_exec_degenerate _ Hdeg).
Qed.

(** What lines 70 to 73 do with a token that starts with [/] or [~]: the
    entry is reported, with the reason [Executable does not exist.], exactly
    when [os.path.exists] is false for the token as it stands. *)
Lemma classify_path_token (entry : Entry) (x : str) :
  startswith x (py "/") = true \/ startswith x (py "~") = true ->
  classify w entry x =
    if path_exists x w then None
    else Some (set_reason (py "Executable does not exist.") entry).
Proof.
  intros Hx. unfold classify.
  assert (Hor : startswith x (py "/") || startswith x (py "~") = true)
    by (apply orb_true_iff; exact Hx).
  rewrite Hor. by destruct (path_exists x w).
Qed.

End ScanFacts.

Section ScanExamples.
Import Scanner Examples.

(** The theorem for C10 at [Exec=] and at [Exec=env FOO=bar BAZ=1], each
    scanned after a file that is reported as broken. *)
Lemma degenerate_exec_aborts_scan_witness :
  (config_read (content empty_exec_desktop) new_config
     = (read_doc [(py "Desktop Entry", [(py "exec", [])])] new_config, None)
   /\ config_get_exec (read_doc [(py "Desktop Entry", [(py "exec", [])])] new_config)
      = Some []
   /\ words (strip []) = inr []
   /\ scan words user_world [empty_exec_desktop; a_desktop] new_config
        [set_reason no_exec_entry (new_entry (path c_desktop))]
      = inl IndexError)
  /\ (config_get_exec
        (read_doc [(py "Desktop Entry", [(py "exec", py "env FOO=bar BAZ=1")])] new_config)
      = Some (py "env FOO=bar BAZ=1")
      /\ words (strip (py "env FOO=bar BAZ=1"))
         = inr [py "env"; py "FOO=bar"; py "BAZ=1"]
      /\ scan words user_world [env_only_desktop; a_desktop] new_config
           [set_reason no_exec_entry (new_entry (path c_desktop))]
         = inl IndexError).
Proof.
  split.
  - split; [reflexivity|]. split; [reflexivity|]. split; [reflexivity|].
    apply (degenerate_exec_aborts_scan words user_world empty_exec_desktop new_config
             (read_doc [(py "Desktop Entry", [(py "exec", [])])] new_config)
             [] [] [a_desktop]); [reflexivity|reflexivity|reflexivity|].
    by left.
  - split; [reflexivity|]. split; [reflexivity|].
    apply (degenerate_exec_aborts_scan words user_world env_only_desktop new_config
             (read_doc [(py "Desktop Entry", [(py "exec", py "env FOO=bar BAZ=1")])]
                new_config)
             (py "env FOO=bar BAZ=1") [py "env"; py "FOO=bar"; py "BAZ=1"] [a_desktop]);
      [reflexivity|reflexivity|reflexivity|].
    right. exists (py "env"), [py "FOO=bar"; py "BAZ=1"].
    split; [reflexivity|]. split; [reflexivity|].
    repeat constructor; apply contains_spec; reflexivity.
Defined.

(** The whole scan on these files. *)
Example empty_exec_aborts_whole_scan :
  find_broken_desktop_files words user_world [c_desktop; empty_exec_desktop; a_desktop]
  = inl IndexError.
Proof. reflexivity. Qed.

(** C5 on the code: [b.desktop] has a [Desktop Entry] section without
    [Exec], and [c.desktop] has no section.  Scanned first, each is reported
    with the reason [No [Desktop Entry].Exec entry found.]; scanned after
    [a.desktop], whose [Exec] the parser still holds, neither is reported. *)
Theorem stale_exec_hides_missing_key :
  find_broken_desktop_files words user_world [b_desktop]
    = inr [{| location := py "/usr/share/applications/b.desktop";
              reason := Some (py "No [Desktop Entry].Exec entry found.");
              exec := None; full_exec := None |}]
  /\ find_broken_desktop_files words user_world [c_desktop]
     = inr [{| location := py "/usr/share/applications/c.desktop";
               reason := Some (py "No [Desktop Entry].Exec entry found.");
               exec := None; full_exec := None |}]
  /\ find_broken_desktop_files words user_world [a_desktop; b_desktop] = inr []
  /\ find_broken_desktop_files words user_world [a_desktop; c_desktop] = inr [].
Proof. repeat split; reflexivity. Qed.

(** C4 on the code: [Exec=~/bin/tool --quiet] for a user with home
    directory [/home/u].  The expanded path [/home/u/bin/tool] exists, but
    the test of line 71 is made on [~/bin/tool] as it stands, and the entry
    is reported with the reason [Executable does not exist.]. *)
Theorem tilde_token_not_expanded :
  SpecReading.expanduser home (py "~/bin/tool") = py "/home/u/bin/tool"
  /\ path_exists (SpecReading.expanduser home (py "~/bin/tool")) user_world = true
  /\ path_exists (py "~/bin/tool") user_world = false
  /\ find_broken_desktop_files words user_world [tilde_desktop]
     = inr [{| location := py "/usr/share/applications/tool.desktop";
               reason := Some (py "Executable does not exist.");
               exec := Some (py "~/bin/tool");
               full_exec := Some (py "~/bin/tool --quiet") |}].
Proof. repeat split; reflexivity. Qed.

(** For a token that starts with [/], expansion changes nothing, and there
    the test of the code is the test of the specification. *)
Lemma expanduser_absolute (home x : str) :
  startswith x (py "/") = true -> SpecReading.expanduser home x = x.
Proof.
  intros Hx. apply startswith_spec in Hx as [t ->]. reflexivity.
Qed.

End ScanExamples.

(** ** The helper client *)

Section StripFacts.

Lemma rstrip_snoc (s : str) (c : N) :
  rstrip (s ++ [c]) = if isspace c then rstrip s else s ++ [c].
Proof.
  unfold rstrip. rewrite reverse_snoc. simpl.
  destruct (isspace c); [done|].
  by rewrite reverse_cons, reverse_involutive.
Qed.

(** Stripping the helper's success line removes its newline and no more. *)
Lemma strip_success_message (entry : str) :
  strip (Helper.success_message entry) = py "UNLINK " ++ entry ++ py " SUCCESS".
Proof.
  unfold strip, Helper.success_message.
  change (lstrip (py "UNLINK " ++ entry ++ py " SUCCESS" ++ nl))
    with (py "UNLINK " ++ entry ++ py " SUCCESS" ++ nl).
  replace (py "UNLINK " ++ entry ++ py " SUCCESS" ++ nl)
    with (((py "UNLINK " ++ entry ++ py " SUCCES") ++ [83]) ++ [10])
    by (by rewrite <- !app_assoc).
  rewrite rstrip_snoc. simpl isspace. cbv iota.
  rewrite rstrip_snoc. simpl isspace. cbv iota.
  by rewrite <- !app_assoc.
Qed.

End StripFacts.

Section ClientFacts.
Import Eff Client.
Context {W : Type} `{FileSystem W}.
Variables python script : str.

Lemma privilaged_subprocess_hit (s : state W) (p : Popen) :
  memo s = Some p -> privilaged_subprocess python script s = Return p s.
Proof. intros Hm. unfold privilaged_subprocess. by rewrite Hm. Qed.

Lemma call_repeatedly_hit (n : nat) (s : state W) (p : Popen) :
  memo s = Some p ->
  call_repeatedly python script n s = Return (replicate n p) s.
Proof.
  intros Hm. induction n as [|n IH]; [done|].
  simpl. unfold bind. rewrite (privilaged_subprocess_hit _ _ Hm).
  by rewrite IH.
Qed.

(** C7: a call of [privilaged_subprocess] that returns a handle either
    found it in the cache and changed nothing, or found the cache empty and
    created exactly one process; afterwards the cache holds the handle, and
    every later call, in any state that still holds this cache, returns the
    same handle and leaves the state, and with it the list of processes, as
    it is. *)
Theorem privilaged_subprocess_lazy_idempotent (s s1 : state W) (p : Popen) :
  privilaged_subprocess python script s = Return p s1 ->
  match memo s with
  | Some q => p = q /\ s1 = s
  | None =>
      exists c, children s1 = children s ++ [c]
                /\ argv c = [py "pkexec"; python; script; py "--privilaged"]
                /\ pid p = List.length (children s)
                /\ stdin p = Some (pid p) /\ stdout p = Some (pid p)
  end
  /\ memo s1 = Some p
  /\ (forall s2 : state W,
        memo s2 = memo s1 -> privilaged_subprocess python script s2 = Return p s2)
  /\ (forall n : nat,
        call_repeatedly python script n s1 = Return (replicate n p) s1).
Proof.
  intros Hcall.
  assert (Hmemo : memo s1 = Some p
            /\ match memo s with
               | Some q => p = q /\ s1 = s
               | None =>
                   exists c, children s1 = children s ++ [c]
                     /\ argv c = [py "pkexec"; python; script; py "--privilaged"]
                     /\ pid p = List.length (children s)
                     /\ stdin p = Some (pid p) /\ stdout p = Some (pid p)
               end).
  { unfold privilaged_subprocess in Hcall.
    destruct (memo s) as [q|] eqn:Hm.
    - injection Hcall as -> ->. by rewrite Hm.
    - unfold bind, popen_piped in Hcall.
      destruct (launcher s); [|discriminate].
      destruct (behaviour s (List.length (children s))) as [[lines closes] leaves].
      simpl in Hcall. injection Hcall as <- <-. split; [done|].
      eexists. simpl. repeat split; reflexivity. }
  destruct Hmemo as [Hm1 Hcase].
  split; [exact Hcase|]. split; [exact Hm1|]. split.
  - intros s2 Hs2. apply privilaged_subprocess_hit. by rewrite Hs2.
  - intros n. by apply call_repeatedly_hit.
Qed.

(** When the cache is empty and [pkexec] cannot be started, the call raises
    and nothing is kept: a later call tries again. *)
Lemma privilaged_subprocess_failure (s : state W) :
  memo s = None -> launcher s = false ->
  privilaged_subprocess python script s = Raise (OSError FileNotFoundError) s.
Proof.
  intros Hm Hl. unfold privilaged_subprocess, bind, popen_piped.
  by rewrite Hm, Hl.
Qed.

(** C1: in the [PermissionError] branch of [remove_file], with the helper's
    handle [p] and [line] the next line its output delivers, the call writes
    exactly [UNLINK <filename>] and a newline to the helper's input, takes
    exactly that one line from its output, and returns [True] when the
    stripped line ends with [SUCCESS] and [False] when it does not; the
    helper's success line is one that makes it return [True]. *)
Theorem remove_file_fallback_result
    (filename : str) (s s1 : state W) (p : Popen) (n : nat) (c : child)
    (line : str) (rest : list str) :
  path_unlink filename (world s) = inl PermissionError ->
  privilaged_subprocess python script s = Return p s1 ->
  stdin p = Some n -> stdout p = Some n ->
  children s1 !! n = Some c -> gone c = false -> pending c = line :: rest ->
  exists (b : bool) (s2 : state W),
    remove_file python script filename s = Return (Some b) s2
    /\ children s2 =
         <[n := {| argv := argv c;
                   received := received c ++ [py "UNLINK " ++ filename ++ [10]];
                   pending := rest; eof := eof c; gone := gone c |}]> (children s1)
    /\ world s2 = world s1
    /\ (b = true <-> exists t, strip line = t ++ py "SUCCESS")
    /\ (b = false <-> ~ exists t, strip line = t ++ py "SUCCESS")
    /\ (forall entry, line = Helper.success_message entry -> b = true).
Proof.
  intros Hperm Hsub Hin Hout Hc Hgone Hpend.
  pose proof (lookup_lt_Some _ _ _ Hc) as Hlt.
  exists (endswith (strip line) (py "SUCCESS")).
  assert (Hrun : exists s2,
    remove_file python script filename s
      = Return (Some (endswith (strip line) (py "SUCCESS"))) s2
    /\ children s2 =
         <[n := {| argv := argv c;
                   received := received c ++ [py "UNLINK " ++ filename ++ [10]];
                   pending := rest; eof := eof c; gone := gone c |}]> (children s1)
    /\ world s2 = world s1).
  { unfold remove_file. rewrite Hperm.
    unfold unlink_fallback, bind. rewrite Hsub, Hin, Hout.
    unfold pipe_write. rewrite Hc, Hgone.
    unfold pipe_readline. simpl children.
    rewrite list_lookup_insert_eq by exact Hlt. simpl pending. rewrite Hpend.
    rewrite list_insert_insert_eq.
    unfold success_word.
    destruct (endswith (strip line) (py "SUCCESS")); simpl;
      eexists; (split; [reflexivity|]); simpl; split; try reflexivity.
    all: by rewrite <- app_assoc. }
  destruct Hrun as (s2 & Hrun & Hch & Hw).
  exists s2. split; [exact Hrun|]. split; [exact Hch|]. split; [exact Hw|].
  split; [apply endswith_spec|]. split; [apply endswith_false|].
  intros entry ->. rewrite strip_success_message.
  apply endswith_spec. exists (py "UNLINK " ++ entry ++ [32]).
  by rewrite <- !app_assoc.
Qed.

End ClientFacts.

Section ClientExamples.
Import Eff Client Examples.

(** The theorem for C7 at the first call in [main0]: one process is
    created, and five more calls return the same handle and create none. *)
Lemma privilaged_subprocess_lazy_idempotent_witness :
  privilaged_subprocess python script main0 = Return first_handle main1
  /\ children main1 = children main0 ++ [first_child]
  /\ memo main1 = Some first_handle
  /\ call_repeatedly python script 5 main1
     = Return (replicate 5 first_handle) main1.
Proof.
  assert (Hcall : privilaged_subprocess python script main0 = Return first_handle main1)
    by reflexivity.
  destruct (privilaged_subprocess_lazy_idempotent python script main0 main1
              first_handle Hcall) as (_ & Hm & _ & Hrep).
  split; [exact Hcall|]. split; [reflexivity|]. split; [exact Hm|].
  exact (Hrep 5%nat).
Defined.

(** The theorem for C1 at the deletion of a file the user may not delete,
    answered by the helper with its success line. *)
Lemma remove_file_fallback_result_witness :
  path_unlink (py "/usr/share/applications/old.desktop") (world main0)
    = inl PermissionError
  /\ privilaged_subprocess python script main0 = Return first_handle main1
  /\ children main1 !! 0%nat = Some first_child
  /\ exists (b : bool) (s2 : state Sim.world),
       remove_file python script (py "/usr/share/applications/old.desktop") main0
         = Return (Some b) s2
       /\ children s2 =
            <[0%nat := {| argv := argv first_child;
                          received := received first_child
                            ++ [py "UNLINK " ++ py "/usr/share/applications/old.desktop"
                                ++ [10]];
                          pending := [py "ERR Must be a .desktop file." ++ nl];
                          eof := eof first_child; gone := gone first_child |}]>
              (children main1)
       /\ world s2 = world main1
       /\ (b = true <->
           exists t, strip (py "UNLINK /usr/share/applications/old.desktop SUCCESS" ++ nl)
                     = t ++ py "SUCCESS")
       /\ (b = false <->
           ~ exists t, strip (py "UNLINK /usr/share/applications/old.desktop SUCCESS" ++ nl)
                       = t ++ py "SUCCESS")
       /\ (forall entry,
             py "UNLINK /usr/share/applications/old.desktop SUCCESS" ++ nl
               = Helper.success_message entry -> b = true).
Proof.
  split; [reflexivity|]. split; [reflexivity|]. split; [reflexivity|].
  exact (remove_file_fallback_result python script
           (py "/usr/share/applications/old.desktop") main0 main1 first_handle
           0%nat first_child
           (py "UNLINK /usr/share/applications/old.desktop SUCCESS" ++ nl)
           [py "ERR Must be a .desktop file." ++ nl]
           eq_refl eq_refl eq_refl eq_refl eq_refl eq_refl eq_refl).
Defined.

(** The two calls run: the first returns [True]; the second, answered with
    an error line, returns [False] and logs the line; both use one helper. *)
Example remove_file_twice :
  match remove_file python script (py "/usr/share/applications/old.desktop") main0 with
  | Return r1 s1 =>
      r1 = Some true
      /\ match remove_file python script (py "/usr/share/applications/old.desktop") s1 with
         | Return r2 s2 =>
             r2 = Some false
             /\ errors s2 = [py "Failed to unlink file. ERR Must be a .desktop file."]
             /\ List.length (children s2) = 1%nat
             /\ (received <$> children s2)
                = [[py "UNLINK /usr/share/applications/old.desktop" ++ nl;
                    py "UNLINK /usr/share/applications/old.desktop" ++ nl]]
         | _ => False
         end
  | _ => False
  end.
Proof. vm_compute. repeat split; reflexivity. Qed.

(** Blanks after [SUCCESS] are stripped before the test. *)
Example trailing_blanks_are_stripped :
  endswith (strip (py "UNLINK /a.desktop SUCCESS  " ++ nl)) (py "SUCCESS") = true
  /\ endswith (strip (py "UNLINK /a.desktop SUCCESS." ++ nl)) (py "SUCCESS") = false.
Proof. split; reflexivity. Qed.

End ClientExamples.

(** ** The remediator *)

Section RemediatorFacts.
Import Eff Client Scanner Remediator.
Context {W : Type} `{FileSystem W}.
Variables python script : str.
Variable relative_to_home : str -> option str.

(** C8 (as amended): when the loop over a non-empty list of entries is
    left, at its end or by [quit], with the counters [d] and [e], what is
    printed after it is an empty line, the number of entries found, the
    number deleted if it is not zero, the number edited if it is not zero,
    and an empty line. *)
Theorem totals_after_loop (entries : list Entry) (s s1 : state W) (d e : nat) :
  entries <> [] ->
  visit python script relative_to_home entries 0 0 s = Return (d, e) s1 ->
  exists s2 : state W,
    fix_entries python script relative_to_home entries s = Return tt s2
    /\ printed s2 =
         printed s1
         ++ [[10];
             decimal (List.length entries)
               ++ py " potentially bad .desktop files were found." ++ [10]]
         ++ (if Nat.ltb 0 d then [decimal d ++ py " deleted." ++ [10]] else [])
         ++ (if Nat.ltb 0 e then [decimal e ++ py " edited." ++ [10]] else [])
         ++ [[10]].
Proof.
  intros Hne Hvisit.
  unfold fix_entries.
  destruct entries as [|entry rest]; [done|].
  change (Nat.eqb (List.length (entry :: rest)) 0) with false. cbv iota.
  unfold bind. rewrite Hvisit.
  unfold totals, bind, print, modify, found_line, deleted_line, edited_line, nl.
  cbn [fst snd].
  destruct (Nat.ltb 0 d), (Nat.ltb 0 e); cbn [ret];
    eexists; (split; [reflexivity|]); cbn [printed set_printed];
    by rewrite <- !app_assoc.
Qed.

(** An answer that lowers to [q] or [quit] leaves the loop at once: the
    counters are returned as they are and the entries after this one are not
    visited. *)
Lemma quit_leaves_loop (entry : Entry) (rest : list Entry) (d e : nat)
    (s s1 : state W) (answer : str) (later : list str) :
  report relative_to_home entry s = Return tt s1 ->
  typed s1 = answer :: later ->
  lower answer = py "q" \/ lower answer = py "quit" ->
  visit python script relative_to_home (entry :: rest) d e s
  = Return (d, e) (set_typed later (set_printed (printed s1 ++ [prompt]) s1)).
Proof.
  intros Hrep Htyped Hq. simpl. unfold bind. rewrite Hrep.
  unfold input. rewrite Htyped.
  assert (Hor : eqs (lower answer) (py "q") || eqs (lower answer) (py "quit") = true).
  { apply orb_true_iff. destruct Hq as [Hq|Hq]; [left|right]; by apply eqs_true. }
  by rewrite Hor.
Qed.

End RemediatorFacts.

Section RemediatorExamples.
Import Eff Client Scanner Remediator Examples.

(** The theorem for C8 at a run in which the user deletes the first of
    three entries, edits the second and quits at the third. *)
Lemma totals_after_loop_witness :
  [broken_old; broken_mine; broken_b] <> []
  /\ visit python script home_relative [broken_old; broken_mine; broken_b] 0 0 user_acts
     = Return (1%nat, 1%nat)
         (final (visit python script home_relative
                   [broken_old; broken_mine; broken_b] 0 0 user_acts))
  /\ exists s2 : state Sim.world,
       fix_entries python script home_relative [broken_old; broken_mine; broken_b]
         user_acts = Return tt s2
       /\ printed s2 =
            printed (final (visit python script home_relative
                              [broken_old; broken_mine; broken_b] 0 0 user_acts))
            ++ [[10]; py "3 potentially bad .desktop files were found." ++ [10]]
            ++ [py "1 deleted." ++ [10]]
            ++ [py "1 edited." ++ [10]]
            ++ [[10]].
Proof.
  assert (Hne : [broken_old; broken_mine; broken_b] <> []) by discriminate.
  assert (Hvisit :
    visit python script home_relative [broken_old; broken_mine; broken_b] 0 0 user_acts
    = Return (1%nat, 1%nat)
        (final (visit python script home_relative
                  [broken_old; broken_mine; broken_b] 0 0 user_acts)))
    by (vm_compute; reflexivity).
  split; [exact Hne|]. split; [exact Hvisit|].
  exact (totals_after_loop python script home_relative _ _ _ _ _ Hne Hvisit).
Defined.

(** C8 as the specification words it fails: one entry is found and the user
    ignores it.  The loop ends, and what follows it is the number found
    between two empty lines; no line tells a number deleted or edited. *)
Lemma totals_counterexample :
  fix_entries python script home_relative [broken_b] user_ignores
  = Return tt (final (fix_entries python script home_relative [broken_b] user_ignores))
  /\ printed (final (fix_entries python script home_relative [broken_b] user_ignores))
     = [ [10];
         corner_top ++ py " /usr/share/applications/b.desktop" ++ [10];
         bar ++ [10];
         tee ++ py " Problem     No [Desktop Entry].Exec entry found." ++ [10];
         bar ++ [10];
         corner_bottom ++ py " [d]elete, [e]dit, [q]uit, or [i]gnore (default):";
         [10];
         py "1 potentially bad .desktop files were found." ++ [10];
         [10] ]
  /\ existsb (fun l => endswith (strip l) (py "deleted.")
                       || endswith (strip l) (py "edited."))
       (printed (final (fix_entries python script home_relative [broken_b] user_ignores)))
     = false.
Proof. repeat split; vm_compute; reflexivity. Qed.

End RemediatorExamples.

(** * Further properties of the code *)

(** ** The helper loop as a whole *)

Section SplitFacts.

(** When the separator occurs, [split(sep, 1)] gives exactly two parts: the
    text before its first occurrence and the text after it. *)
Lemma split1_present (sep : N) (s : str) :
  contains sep s = true ->
  exists a b, split1 sep s = [a; b] /\ s = a ++ sep :: b /\ sep ∉ a.
Proof.
  induction s as [|c s IH]; intros Hc; [discriminate|].
  simpl in Hc. simpl.
  destruct (N.eqb_spec c sep) as [->|Hne].
  - exists [], s. split; [done|]. split; [done|]. apply not_elem_of_nil.
  - assert (Hs : contains sep s = true).
    { apply orb_true_iff in Hc as [Hc|Hc]; [|exact Hc].
      apply N.eqb_eq in Hc. congruence. }
    destruct (IH Hs) as (a & b & -> & -> & Ha).
    exists (c :: a), b. split; [done|]. split; [done|].
    apply not_elem_of_cons. split; [congruence|exact Ha].
Qed.

Lemma endswith_snoc_other (s p : str) (q c : N) :
  q <> c -> endswith (s ++ [q]) (p ++ [c]) = false.
Proof.
  intros Hne. unfold endswith. rewrite !reverse_snoc. simpl.
  destruct (N.eqb_spec c q) as [->|_]; [done|reflexivity].
Qed.

End SplitFacts.

Section HelperRuns.
Import Helper.
Context {W : Type} `{FileSystem W}.
Variable repr : str -> str.

(** Every pass of the loop takes one of five courses; the [ValueError] of
    an unpacking that finds other than two parts never occurs. *)
Lemma dispatch_shape (raw : str) (st : state W) :
  dispatch repr raw st = Next (write usage_message st)
  \/ dispatch repr raw st = Next (write not_desktop_message st)
  \/ (exists command entry,
        dispatch repr raw st = Next (write (unknown_message repr command entry) st))
  \/ (exists entry w',
        endswith entry (py ".desktop") = true
        /\ path_unlink entry (world st) = inr w'
        /\ dispatch repr raw st
           = Next (write (success_message entry) (set_world w' (attempt entry st))))
  \/ (exists entry e,
        endswith entry (py ".desktop") = true
        /\ path_unlink entry (world st) = inl e
        /\ dispatch repr raw st = Raised (OSError e) (attempt entry st)).
Proof.
  unfold dispatch.
  destruct (contains 32 (strip raw)) eqn:Hsp; simpl negb; cbv iota; [|by left].
  destruct (split1_present _ _ Hsp) as (command & entry & -> & _ & _).
  destruct (eqs command (py "UNLINK")).
  - destruct (endswith entry (py ".desktop")) eqn:Hext; simpl negb; cbv iota.
    + destruct (path_unlink entry (world st)) as [e|w'] eqn:Hun.
      * right; right; right; right. by exists entry, e.
      * right; right; right; left. by exists entry, w'.
    + right; by left.
  - right; right; left. by exists command, entry.
Qed.

(** X1: a line whose command is anything but [UNLINK] is answered with
    [ERR Unknown: command=... entry=...], the two parts shown by [repr];
    nothing is deleted and the loop goes on.  The entry is everything after
    the first space, later spaces included. *)
Theorem unknown_command_answered
    (raw command entry : str) (st : state W) (rest : list str) :
  strip raw = command ++ 32 :: entry ->
  32 ∉ command ->
  command <> py "UNLINK" ->
  start_privilaged repr (raw :: rest) st =
    start_privilaged repr rest
      {| world := world st;
         stdout := stdout st
           ++ [py "ERR Unknown: command=" ++ repr command
               ++ py " entry=" ++ repr entry ++ [10]];
         attempts := attempts st |}.
Proof.
  intros Hline Hcmd Hne. simpl. unfold dispatch. rewrite Hline.
  assert (Hsp : contains 32 (command ++ 32 :: entry) = true).
  { apply contains_spec. apply elem_of_app. right. apply list_elem_of_here. }
  rewrite Hsp, (split1_first _ _ _ Hcmd). simpl negb. cbv iota.
  apply eqs_false in Hne. by rewrite Hne.
Qed.

(** X2: a request [UNLINK <stem>.desktop] on which [unlink] succeeds is
    answered with [UNLINK <stem>.desktop SUCCESS]; the path unlinked is the
    whole text after the first space, whatever spaces it holds, and the loop
    goes on in the file system without the file. *)
Theorem unlink_request_served
    (raw stem : str) (w' : W) (st : state W) (rest : list str) :
  strip raw = py "UNLINK " ++ stem ++ py ".desktop" ->
  path_unlink (stem ++ py ".desktop") (world st) = inr w' ->
  start_privilaged repr (raw :: rest) st =
    start_privilaged repr rest
      {| world := w';
         stdout := stdout st
           ++ [py "UNLINK " ++ (stem ++ py ".desktop") ++ py " SUCCESS" ++ [10]];
         attempts := attempts st ++ [stem ++ py ".desktop"] |}.
Proof.
  intros Hline Hun. simpl. unfold dispatch. rewrite Hline.
  destruct (unlink_line_parsed (stem ++ py ".desktop")) as [-> ->].
  simpl negb. cbv iota. rewrite eqs_refl.
  assert (Hend : endswith (stem ++ py ".desktop") (py ".desktop") = true)
    by (apply endswith_spec; by exists stem).
  rewrite Hend. simpl negb. cbv iota. by rewrite Hun.
Qed.

(** X3: whatever lines arrive, the helper calls [unlink] only on paths that
    end with [.desktop]. *)
Theorem only_desktop_files_unlinked (stdin : list str) (st : state W) :
  Forall (fun p => exists stem, p = stem ++ py ".desktop") (attempts st) ->
  Forall (fun p => exists stem, p = stem ++ py ".desktop")
         (attempts (last_state (start_privilaged repr stdin st))).
Proof.
  revert st. induction stdin as [|raw rest IH]; intros st Hst; [exact Hst|].
  simpl.
  assert (Hgrow : forall entry, endswith entry (py ".desktop") = true ->
            Forall (fun p => exists stem, p = stem ++ py ".desktop")
                   (attempts st ++ [entry])).
  { intros entry Hext. apply Forall_app. split; [exact Hst|].
    constructor; [|constructor]. by apply endswith_spec. }
  destruct (dispatch_shape raw st)
    as [-> | [-> | [(c & e & ->) | [(e & w' & Hext & _ & ->) | (e & x & Hext & _ & ->)]]]].
  - by apply IH.
  - by apply IH.
  - by apply IH.
  - apply IH. simpl. by apply Hgrow.
  - simpl. by apply Hgrow.
Qed.

(** X4: the protocol is one response per request.  While the helper lives
    it has written one chunk for each line read; when it has died, every
    line before the fatal one has its response and the fatal one has none. *)
Theorem one_response_per_line (stdin : list str) (st : state W) :
  match start_privilaged repr stdin st with
  | Reading st' =>
      List.length (stdout st') = (List.length (stdout st) + List.length stdin)%nat
  | Died _ st' unread =>
      (List.length (stdout st') + List.length unread + 1
       = List.length (stdout st) + List.length stdin)%nat
  end.
Proof.
  revert st. induction stdin as [|raw rest IH]; intros st; simpl; [lia|].
  destruct (dispatch_shape raw st)
    as [-> | [-> | [(c & e & ->) | [(e & w' & _ & _ & ->) | (e & x & _ & _ & ->)]]]].
  1-4: match goal with
       | |- context [start_privilaged repr ?r ?s] =>
           specialize (IH s); destruct (start_privilaged repr r s);
           simpl in IH; rewrite length_app in IH; simpl in IH; lia
       end.
  simpl. lia.
Qed.

End HelperRuns.

Section HelperProtocol.
Import Helper.
Context {W : Type} `{FileSystem W}.
Variable repr : str -> str.

Lemma lstrip_nonspace (c : N) (s : str) :
  isspace c = false -> lstrip (c :: s) = c :: s.
Proof. intros Hc. simpl. by rewrite Hc. Qed.

(** An [ERR Unknown] line never passes the client's test: it ends with the
    quote that closes [repr]. *)
Lemma unknown_message_rejected (command entry : str) :
  (forall s, exists t, repr s = t ++ [39] \/ repr s = t ++ [34]) ->
  endswith (strip (unknown_message repr command entry)) (py "SUCCESS") = false.
Proof.
  intros Hrepr. unfold unknown_message, strip.
  destruct (Hrepr entry) as [t Ht].
  assert (Hq : exists q, repr entry = t ++ [q] /\ isspace q = false /\ q <> 83).
  { destruct Ht as [Ht|Ht]; [exists 39|exists 34]; by repeat split. }
  destruct Hq as (q & -> & Hsp & Hne).
  change (py "ERR Unknown: command=" ++ repr command ++ py " entry=" ++ (t ++ [q]) ++ nl)
    with (69 :: (py "RR Unknown: command=" ++ repr command ++ py " entry="
                 ++ (t ++ [q]) ++ nl)).
  rewrite lstrip_nonspace by reflexivity.
  replace (69 :: (py "RR Unknown: command=" ++ repr command ++ py " entry="
                  ++ (t ++ [q]) ++ nl))
    with (((py "ERR Unknown: command=" ++ repr command ++ py " entry=" ++ t) ++ [q])
          ++ [10])
    by (by rewrite <- !app_assoc).
  rewrite rstrip_snoc. simpl isspace. cbv iota.
  rewrite rstrip_snoc, Hsp.
  apply (endswith_snoc_other _ (py "SUCCES") q 83 Hne).
Qed.

(** X5: the client's test of a response, [strip] then [endswith("SUCCESS")],
    accepts a line the helper wrote exactly when the helper wrote it after
    an [unlink] that succeeded.  The usage line, the two kinds of [ERR] line
    and therefore every refusal are read as failure, whatever the command
    and the entry echoed in them. *)
Theorem success_line_means_unlinked (raw : str) (st st' : state W) :
  (forall s, exists t, repr s = t ++ [39] \/ repr s = t ++ [34]) ->
  dispatch repr raw st = Next st' ->
  exists line,
    stdout st' = stdout st ++ [line]
    /\ (endswith (strip line) (py "SUCCESS") = true <->
        exists entry,
          attempts st' = attempts st ++ [entry]
          /\ path_unlink entry (world st) = inr (world st')
          /\ line = py "UNLINK " ++ entry ++ py " SUCCESS" ++ [10]).
Proof.
  intros Hrepr Hd.
  assert (Hno : forall text entry,
            attempts (write text st) = attempts st ++ [entry] -> False).
  { intros text entry Heq. simpl in Heq.
    apply (f_equal List.length) in Heq. rewrite length_app in Heq.
    simpl in Heq. lia. }
  destruct (dispatch_shape repr raw st)
    as [Hs | [Hs | [(c & e & Hs) | [(e & w' & Hext & Hun & Hs) | (e & x & _ & _ & Hs)]]]];
    rewrite Hs in Hd; [| | | |discriminate]; injection Hd as <-.
  - exists usage_message. split; [done|]. split; [discriminate|].
    intros (entry & Ha & _). by destruct (Hno _ _ Ha).
  - exists not_desktop_message. split; [done|]. split; [discriminate|].
    intros (entry & Ha & _). by destruct (Hno _ _ Ha).
  - exists (unknown_message repr c e). split; [done|].
    rewrite (unknown_message_rejected _ _ Hrepr). split; [discriminate|].
    intros (entry & Ha & _). by destruct (Hno _ _ Ha).
  - exists (success_message e). split; [done|]. split.
    + intros _. exists e. by repeat split.
    + intros _. rewrite strip_success_message.
      apply endswith_spec. exists (py "UNLINK " ++ e ++ [32]).
      by rewrite <- !app_assoc.
Qed.




End HelperProtocol.

Section HelperSession.
Import Helper Examples.

Lemma quoted_ends_with_quote (s : str) :
  exists t, quoted s = t ++ [39] \/ quoted s = t ++ [34].
Proof. exists (39 :: s). by left. Qed.

(** X1 at the line [STAT /usr/share/applications/old.desktop]. *)
Lemma unknown_command_answered_witness :
  strip (py "STAT /usr/share/applications/old.desktop" ++ [10])
    = py "STAT" ++ 32 :: py "/usr/share/applications/old.desktop"
  /\ (32 ∉ py "STAT")
  /\ py "STAT" <> py "UNLINK"
  /\ start_privilaged quoted [py "STAT /usr/share/applications/old.desktop" ++ [10]]
       helper0
     = Reading
         {| world := root_world;
            stdout :=
              [py "ERR Unknown: command='STAT' entry='/usr/share/applications/old.desktop'"
               ++ [10]];
            attempts := [] |}.
Proof.
  assert (H1 : strip (py "STAT /usr/share/applications/old.desktop" ++ [10])
               = py "STAT" ++ 32 :: py "/usr/share/applications/old.desktop")
    by reflexivity.
  assert (H2 : 32 ∉ py "STAT") by (apply absent_by_contains; reflexivity).
  assert (H3 : py "STAT" <> py "UNLINK") by discriminate.
  split; [exact H1|]. split; [exact H2|]. split; [exact H3|].
  rewrite (unknown_command_answered quoted _ _ _ helper0 [] H1 H2 H3).
  reflexivity.
Defined.

(** X2 at the request for [/usr/share/applications/old.desktop]. *)
Lemma unlink_request_served_witness :
  strip (py "UNLINK /usr/share/applications/old.desktop" ++ [10])
    = py "UNLINK " ++ py "/usr/share/applications/old" ++ py ".desktop"
  /\ path_unlink (py "/usr/share/applications/old" ++ py ".desktop") root_world
     = inr root_world_after
  /\ start_privilaged quoted [py "UNLINK /usr/share/applications/old.desktop" ++ [10]]
       helper0
     = Reading
         {| world := root_world_after;
            stdout := [py "UNLINK /usr/share/applications/old.desktop SUCCESS" ++ [10]];
            attempts := [py "/usr/share/applications/old.desktop"] |}.
Proof.
  assert (H1 : strip (py "UNLINK /usr/share/applications/old.desktop" ++ [10])
               = py "UNLINK " ++ py "/usr/share/applications/old" ++ py ".desktop")
    by reflexivity.
  assert (H2 : path_unlink (py "/usr/share/applications/old" ++ py ".desktop") root_world
               = inr root_world_after) by reflexivity.
  split; [exact H1|]. split; [exact H2|].
  rewrite (unlink_request_served quoted _ (py "/usr/share/applications/old")
             root_world_after helper0 [] H1 H2).
  reflexivity.
Defined.

(** X3 on [session]: two paths are unlinked, both desktop files. *)
Lemma only_desktop_files_unlinked_witness :
  Forall (fun p => exists stem, p = stem ++ py ".desktop") (attempts helper0)
  /\ Forall (fun p => exists stem, p = stem ++ py ".desktop")
       (attempts (last_state (start_privilaged quoted session helper0)))
  /\ attempts (last_state (start_privilaged quoted session helper0))
     = [py "/usr/share/applications/old.desktop";
        py "/usr/share/applications/dir.desktop"].
Proof.
  assert (H0 : Forall (fun p => exists stem, p = stem ++ py ".desktop")
                 (attempts helper0)) by constructor.
  split; [exact H0|].
  split; [exact (only_desktop_files_unlinked quoted session helper0 H0)|].
  reflexivity.
Defined.

(** X4 on [session]: four responses for the four lines before the fatal
    one, and one line left unread. *)
Example session_responses :
  start_privilaged quoted session helper0
  = Died (OSError IsADirectoryError)
      {| world := root_world_after;
         stdout :=
           [py "Must be in the form '[CMD] ...\n'" ++ [10];
            py "ERR Unknown: command='STAT' entry='/usr/share/applications/old.desktop'"
              ++ [10];
            py "ERR Must be a .desktop file." ++ [10];
            py "UNLINK /usr/share/applications/old.desktop SUCCESS" ++ [10]];
         attempts := [py "/usr/share/applications/old.desktop";
                      py "/usr/share/applications/dir.desktop"] |}
      [py "UNLINK /usr/share/applications/old.desktop" ++ [10]].
Proof. vm_compute. reflexivity. Qed.

(** X5 at the request that succeeds. *)
Lemma success_line_means_unlinked_witness :
  (forall s, exists t, quoted s = t ++ [39] \/ quoted s = t ++ [34])
  /\ dispatch quoted (py "UNLINK /usr/share/applications/old.desktop" ++ [10]) helper0
     = Next {| world := root_world_after;
               stdout := [py "UNLINK /usr/share/applications/old.desktop SUCCESS" ++ [10]];
               attempts := [py "/usr/share/applications/old.desktop"] |}
  /\ exists line,
       [py "UNLINK /usr/share/applications/old.desktop SUCCESS" ++ [10]] = [] ++ [line]
       /\ (endswith (strip line) (py "SUCCESS") = true <->
           exists entry,
             [py "/usr/share/applications/old.desktop"] = [] ++ [entry]
             /\ path_unlink entry root_world = inr root_world_after
             /\ line = py "UNLINK " ++ entry ++ py " SUCCESS" ++ [10]).
Proof.
  assert (Hd : dispatch quoted (py "UNLINK /usr/share/applications/old.desktop" ++ [10])
                 helper0
               = Next {| world := root_world_after;
                         stdout := [py "UNLINK /usr/share/applications/old.desktop SUCCESS"
                                    ++ [10]];
                         attempts := [py "/usr/share/applications/old.desktop"] |})
    by (vm_compute; reflexivity).
  split; [exact quoted_ends_with_quote|]. split; [exact Hd|].
  exact (success_line_means_unlinked quoted _ helper0 _ quoted_ends_with_quote Hd).
Defined.


End HelperSession.

(** ** The scanner *)

Section ResolveMore.
Import Scanner.

Lemma filter_plain_head (args rest : list str) (x : str) :
  List.filter (fun c => negb (contains 61 c)) args = x :: rest ->
  x ∈ args /\ 61 ∉ x.
Proof.
  intros Hf.
  assert (Hin : In x (List.filter (fun c => negb (contains 61 c)) args))
    by (rewrite Hf; by left).
  apply filter_In in Hin as [Hin Hx]. split; [by apply list_elem_of_In|].
  apply contains_false. by destruct (contains 61 x).
Qed.

Lemma filter_plain_nil (args : list str) :
  List.filter (fun c => negb (contains 61 c)) args = [] ->
  Forall (fun a => 61 ∈ a) args.
Proof.
  induction args as [|a args IH]; simpl; [constructor|].
  destruct (contains 61 a) eqn:Ha; simpl; [|discriminate].
  intros Hf. constructor; [by apply contains_spec|by apply IH].
Qed.

(** The two ways [resolve_exec] ends. *)
Lemma resolve_exec_cases (command : list str) :
  match resolve_exec command with
  | inr x =>
      x ∈ command
      /\ (forall c0 args, command = c0 :: args -> lower c0 = py "env" ->
                          x ∈ args /\ 61 ∉ x)
  | inl e =>
      e = IndexError
      /\ (command = []
          \/ exists c0 args, command = c0 :: args /\ lower c0 = py "env"
                             /\ Forall (fun a => 61 ∈ a) args)
  end.
Proof.
  destruct command as [|c0 args]; simpl; [by split; [|left]|].
  destruct (eqs (lower c0) (py "env")) eqn:Henv.
  - apply eqs_true in Henv.
    destruct (List.filter _ args) as [|x rest] eqn:Hf.
    + split; [done|]. right. exists c0, args.
      split; [done|]. split; [done|]. by apply filter_plain_nil.
    + destruct (filter_plain_head _ _ _ Hf) as [Hin Hx]. split.
      * by apply list_elem_of_further.
      * intros c0' args' Heq _. by injection Heq as <- <-.
  - apply eqs_false in Henv. split; [apply list_elem_of_here|].
    intros c0' args' Heq Hl. injection Heq as <- <-. by destruct Henv.
Qed.

(** X8: [resolve_exec] fails in two cases only, both with [IndexError]: no
    token at all, or [env] followed by nothing but assignments.  When it
    succeeds, the executable is a token of the command line, and after [env]
    it is a later token that holds no [=]: never [env] itself and never an
    assignment. *)
Theorem resolve_exec_outcomes (command : list str) :
  match resolve_exec command with
  | inr x =>
      x ∈ command
      /\ (forall c0 args, command = c0 :: args -> lower c0 = py "env" ->
                          x ∈ args /\ 61 ∉ x)
  | inl e =>
      e = IndexError
      /\ (command = []
          \/ exists c0 args, command = c0 :: args /\ lower c0 = py "env"
                             /\ Forall (fun a => 61 ∈ a) args)
  end.
Proof. exact (resolve_exec_cases command). Qed.

End ResolveMore.

Section ScanMore.
Import Scanner.
Context {W : Type} `{FileSystem W}.
Variable shlex_split : str -> exn + list str.
Variable w : W.

Lemma classify_reason (entry : Entry) (x : str) (found : Entry) :
  classify w entry x = Some found ->
  location found = location entry /\ is_Some (reason found).
Proof.
  unfold classify. intros Hc.
  destruct (startswith x (py "/") || startswith x (py "~")).
  - destruct (path_exists x w); [discriminate|]. by injection Hc as <-.
  - destruct (which x w); [discriminate|]. by injection Hc as <-.
Qed.

(** What one file can add to the list, and what can leave the loop. *)
Lemma scan_file_outcomes (f : desktop_file) (c : config) :
  match (scan_file shlex_split w f c).2 with
  | inl e => e = IndexError \/ exists v, shlex_split v = inl e
  | inr None => True
  | inr (Some entry) => location entry = path f /\ is_Some (reason entry)
  end.
Proof.
  unfold scan_file.
  destruct (config_read (content f) c) as [c' [message|]]; simpl; [done|].
  destruct (config_get_exec c') as [v|]; simpl; [|done].
  destruct (shlex_split (strip v)) as [e|command] eqn:Hs; simpl.
  { right. by exists (strip v). }
  pose proof (resolve_exec_cases command) as Hr.
  destruct (resolve_exec command) as [e|x]; simpl.
  { left. by destruct Hr. }
  destruct (classify w _ x) as [found|] eqn:Hc; [|done].
  by apply classify_reason in Hc.
Qed.


(** X10: every entry the scan returns carries a reason, and the locations
    of the entries are files that were scanned, in the order of the scan and
    each at most once: there are never more entries than files. *)
Theorem scan_result_shape
    (files : list desktop_file) (c : config) (broken found : list Entry) :
  scan shlex_split w files c broken = inr found ->
  exists new,
    found = broken ++ new
    /\ Forall (fun entry => is_Some (reason entry)) new
    /\ (location <$> new) `sublist_of` (path <$> files)
    /\ (List.length new <= List.length files)%nat.
Proof.
  revert c broken. induction files as [|f rest IH]; intros c broken; simpl.
  - intros [= <-]. exists []. rewrite app_nil_r.
    split; [done|]. split; [constructor|]. split; [simpl; constructor|simpl; lia].
  - pose proof (scan_file_outcomes f c) as Hf.
    destruct (scan_file shlex_split w f c) as [c' [e'|[entry|]]]; simpl in Hf.
    + discriminate.
    + intros Hs. destruct (IH _ _ Hs) as (new & -> & Hr & Hsub & Hlen).
      destruct Hf as [Hloc Hreason].
      exists (entry :: new). rewrite <- app_assoc. split; [done|].
      split; [by constructor|]. split; [|simpl; lia].
      rewrite fmap_cons, Hloc. by apply sublist_skip.
    + intros Hs. destruct (IH _ _ Hs) as (new & -> & Hr & Hsub & Hlen).
      exists new. split; [done|]. split; [done|]. split; [|lia].
      by apply sublist_cons.
Qed.

End ScanMore.

Section ParserFacts.
Import Scanner.

Lemma split1_absent (sep : N) (s : str) : sep ∉ s -> split1 sep s = [s].
Proof.
  induction s as [|c s IH]; intros Hn; simpl; [done|].
  apply not_elem_of_cons in Hn as [Hc Hs].
  destruct (N.eqb_spec c sep) as [->|_]; [done|].
  by rewrite IH.
Qed.

(** [first_line] is the text up to the first newline. *)
Lemma first_line_spec (message : str) :
  (10 ∉ first_line message)
  /\ (message = first_line message
      \/ exists tail, message = first_line message ++ 10 :: tail).
Proof.
  unfold first_line.
  destruct (contains 10 message) eqn:Hc.
  - destruct (split1_present _ _ Hc) as (a & b & -> & Hm & Ha).
    split; [exact Ha|]. right. by exists b.
  - apply contains_false in Hc. rewrite (split1_absent _ _ Hc).
    split; [exact Hc|]. by left.
Qed.

Lemma add_options_app (o1 o2 : list (str * str)) (m : gmap str str) :
  add_options (o1 ++ o2) m = add_options o2 (add_options o1 m).
Proof. unfold add_options. apply foldl_app. Qed.

Lemma add_options_lookup_other (k : str) (opts : list (str * str)) (m : gmap str str) :
  k ∉ opts.*1 -> add_options opts m !! k = m !! k.
Proof.
  revert m. induction opts as [|[k' v'] opts IH]; intros m Hk; [done|].
  rewrite fmap_cons in Hk. apply not_elem_of_cons in Hk as [Hne Hk].
  change (add_options ((k', v') :: opts) m) with (add_options opts (<[k' := v']> m)).
  rewrite (IH _ Hk). by apply lookup_insert_ne.
Qed.

Lemma add_options_lookup_last
    (k v : str) (o1 o2 : list (str * str)) (m : gmap str str) :
  k ∉ o2.*1 -> add_options (o1 ++ (k, v) :: o2) m !! k = Some v.
Proof.
  intros Hk. rewrite add_options_app.
  change (add_options ((k, v) :: o2) (add_options o1 m))
    with (add_options o2 (<[k := v]> (add_options o1 m))).
  rewrite (add_options_lookup_other _ _ _ Hk). apply lookup_insert_eq.
Qed.

Lemma desktop_entry_not_default : eqs (py "Desktop Entry") (py "DEFAULT") = false.
Proof. by apply eqs_false. Qed.

(** Reading a section leaves the [Exec] the parser answers with as it was
    when the section has no such option. *)
Lemma read_section_keeps_exec (c : config) (sec : str * list (str * str)) (v : str) :
  py "exec" ∉ sec.2.*1 ->
  config_get_exec c = Some v ->
  config_get_exec (read_section c sec) = Some v.
Proof.
  intros Hk Hget. unfold config_get_exec in *. unfold read_section.
  destruct (eqs sec.1 (py "DEFAULT")) eqn:Hdef; simpl.
  - destruct (sections c !! py "Desktop Entry") as [s|]; [|done].
    destruct (s !! py "exec"); [done|].
    by rewrite (add_options_lookup_other _ _ _ Hk).
  - destruct (decide (sec.1 = py "Desktop Entry")) as [->|Hne].
    + rewrite lookup_insert_eq.
      destruct (sections c !! py "Desktop Entry") as [s|]; [|done]. simpl.
      by rewrite (add_options_lookup_other _ _ _ Hk).
    + by rewrite lookup_insert_ne.
Qed.

(** Reading sections of other names leaves the section [Desktop Entry] as
    it was. *)
Lemma read_doc_other_sections (doc : ini_doc) (c : config) :
  Forall (fun sec => sec.1 <> py "Desktop Entry") doc ->
  sections (read_doc doc c) !! py "Desktop Entry" = sections c !! py "Desktop Entry".
Proof.
  intros Hdoc. revert c.
  induction Hdoc as [|sec doc Hsec _ IH]; intros c; [done|].
  change (read_doc (sec :: doc) c) with (read_doc doc (read_section c sec)).
  rewrite IH. unfold read_section.
  destruct (eqs sec.1 (py "DEFAULT")); simpl; [done|].
  by apply lookup_insert_ne.
Qed.

(** X11: what a file says wins.  After a file whose last [Desktop Entry]
    section sets [Exec] to [v] (the last setting, if there are several), the
    parser answers [v], whatever it held before. *)
Theorem exec_of_file_read
    (pre post : ini_doc) (o1 o2 : list (str * str)) (v : str) (c : config) :
  py "exec" ∉ o2.*1 ->
  Forall (fun sec => sec.1 <> py "Desktop Entry") post ->
  config_get_exec
    (read_doc (pre ++ (py "Desktop Entry", o1 ++ (py "exec", v) :: o2) :: post) c)
  = Some v.
Proof.
  intros Hk Hpost. unfold config_get_exec.
  unfold read_doc. rewrite foldl_app. simpl foldl. fold (read_doc pre c).
  match goal with
  | |- context [foldl read_section ?c' post] => fold (read_doc post c')
  end.
  rewrite (read_doc_other_sections _ _ Hpost).
  unfold read_section at 1. simpl fst. simpl snd.
  rewrite desktop_entry_not_default. simpl sections.
  rewrite lookup_insert_eq.
  by rewrite (add_options_lookup_last _ _ _ _ _ Hk).
Qed.

(** X12: the parser forgets nothing.  Once it answers [v] for [Exec], it
    still answers [v] after any file that has no [Exec] option is read: the
    lookup for that file does not raise [KeyError]. *)
Theorem exec_survives_reading (doc : ini_doc) (c : config) (v : str) :
  Forall (fun sec => py "exec" ∉ sec.2.*1) doc ->
  config_get_exec c = Some v ->
  config_get_exec (read_doc doc c) = Some v.
Proof.
  intros Hdoc. revert c.
  induction Hdoc as [|sec doc Hsec _ IH]; intros c Hget; [done|].
  change (read_doc (sec :: doc) c) with (read_doc doc (read_section c sec)).
  apply IH. by apply read_section_keeps_exec.
Qed.

End ParserFacts.

Section ScanSteps.
Import Scanner.
Context {W : Type} `{FileSystem W}.
Variable shlex_split : str -> exn + list str.
Variable w : W.

(** X13: a file the parser rejects does not end the scan.  It is reported
    with the first line of the parser's message as its reason and without
    [exec] or [full_exec]; the reason holds no newline and the message
    starts with it; the scan goes on with the next file. *)
Theorem malformed_file_reported
    (f : desktop_file) (partial : ini_doc) (message : str)
    (rest : list desktop_file) (c : config) (broken : list Entry) :
  content f = Malformed partial message ->
  scan shlex_split w (f :: rest) c broken =
    scan shlex_split w rest (read_doc partial c)
      (broken ++ [{| location := path f; reason := Some (first_line message);
                     exec := None; full_exec := None |}])
  /\ (10 ∉ first_line message)
  /\ (message = first_line message
      \/ exists tail, message = first_line message ++ 10 :: tail).
Proof.
  intros Hf. split; [|apply first_line_spec].
  simpl. unfold scan_file. by rewrite Hf.
Qed.

(** X14: a file read without error whose executable [x] starts with neither
    [/] nor [~] is judged by [shutil.which] alone: found, it is left out of
    the result; not found, it is reported with the reason
    [Executable not found in $PATH.], the token as [exec] and the stripped
    value as [full_exec]. *)
Theorem command_judged_by_which
    (f : desktop_file) (c c' : config) (v x : str) (command : list str)
    (rest : list desktop_file) (broken : list Entry) :
  config_read (content f) c = (c', None) ->
  config_get_exec c' = Some v ->
  shlex_split (strip v) = inr command ->
  resolve_exec command = inr x ->
  ~ (exists t, x = 47 :: t) -> ~ (exists t, x = 126 :: t) ->
  scan shlex_split w (f :: rest) c broken =
    scan shlex_split w rest c'
      match which x w with
      | Some _ => broken
      | None =>
          broken ++ [{| location := path f;
                        reason := Some (py "Executable not found in $PATH.");
                        exec := Some x; full_exec := Some (strip v) |}]
      end.
Proof.
  intros Hread Hget Hsplit Hres Hslash Htilde.
  simpl. unfold scan_file. rewrite Hread, Hget, Hsplit, Hres.
  unfold classify.
  assert (H1 : startswith x (py "/") = false).
  { destruct (startswith x (py "/")) eqn:E; [|done].
    apply startswith_spec in E as [t ->]. destruct Hslash. by exists t. }
  assert (H2 : startswith x (py "~") = false).
  { destruct (startswith x (py "~")) eqn:E; [|done].
    apply startswith_spec in E as [t ->]. destruct Htilde. by exists t. }
  rewrite H1, H2. simpl orb. cbv iota.
  by destruct (which x w).
Qed.

(** X15: a file read without error whose executable [x] is an absolute
    path is judged by [os.path.exists] alone, the search path playing no
    part: when the path exists the file is left out of the result, and when
    it does not the file is reported with [Executable does not exist.]. *)
Theorem absolute_path_judged_by_exists
    (f : desktop_file) (c c' : config) (v x t : str) (command : list str)
    (rest : list desktop_file) (broken : list Entry) :
  config_read (content f) c = (c', None) ->
  config_get_exec c' = Some v ->
  shlex_split (strip v) = inr command ->
  resolve_exec command = inr x ->
  x = 47 :: t ->
  scan shlex_split w (f :: rest) c broken =
    scan shlex_split w rest c'
      (if path_exists x w then broken
       else broken ++ [{| location := path f;
                          reason := Some (py "Executable does not exist.");
                          exec := Some x; full_exec := Some (strip v) |}]).
Proof.
  intros Hread Hget Hsplit Hres ->.
  simpl. unfold scan_file. rewrite Hread, Hget, Hsplit, Hres.
  unfold classify.
  change (startswith (47 :: t) (py "/")) with true. simpl orb. cbv iota.
  by destruct (path_exists (47 :: t) w).
Qed.

End ScanSteps.

Section ScanRuns.
Import Scanner Examples.

Ltac absent := vm_compute; repeat (apply not_elem_of_cons; split; [discriminate|]);
               apply not_elem_of_nil.


(** X10 at a scan of five files, of which three are reported. *)
Lemma scan_result_shape_witness :
  scan words user_world
    [b_desktop; a_desktop; garbled_desktop; oldtool_desktop; sh_desktop] new_config []
  = inr [ {| location := py "/usr/share/applications/b.desktop";
             reason := Some (py "No [Desktop Entry].Exec entry found.");
             exec := None; full_exec := None |};
          {| location := py "/usr/share/applications/garbled.desktop";
             reason := Some (py "File contains no section headers.");
             exec := None; full_exec := None |};
          {| location := py "/usr/share/applications/old.desktop";
             reason := Some (py "Executable not found in $PATH.");
             exec := Some (py "oldtool");
             full_exec := Some (py "oldtool --start") |} ]
  /\ exists new,
       [ {| location := py "/usr/share/applications/b.desktop";
            reason := Some (py "No [Desktop Entry].Exec entry found.");
            exec := None; full_exec := None |};
         {| location := py "/usr/share/applications/garbled.desktop";
            reason := Some (py "File contains no section headers.");
            exec := None; full_exec := None |};
         {| location := py "/usr/share/applications/old.desktop";
            reason := Some (py "Executable not found in $PATH.");
            exec := Some (py "oldtool");
            full_exec := Some (py "oldtool --start") |} ] = [] ++ new
       /\ Forall (fun entry => is_Some (reason entry)) new
       /\ (location <$> new) `sublist_of`
            (path <$> [b_desktop; a_desktop; garbled_desktop; oldtool_desktop; sh_desktop])
       /\ (List.length new <= 5)%nat.
Proof.
  assert (Hs : scan words user_world
                 [b_desktop; a_desktop; garbled_desktop; oldtool_desktop; sh_desktop]
                 new_config []
               = inr [ {| location := py "/usr/share/applications/b.desktop";
                          reason := Some (py "No [Desktop Entry].Exec entry found.");
                          exec := None; full_exec := None |};
                       {| location := py "/usr/share/applications/garbled.desktop";
                          reason := Some (py "File contains no section headers.");
                          exec := None; full_exec := None |};
                       {| location := py "/usr/share/applications/old.desktop";
                          reason := Some (py "Executable not found in $PATH.");
                          exec := Some (py "oldtool");
                          full_exec := Some (py "oldtool --start") |} ])
    by (vm_compute; reflexivity).
  split; [exact Hs|].
  exact (scan_result_shape words user_world _ _ _ _ Hs).
Defined.

(** X11 at [sh.desktop], read by a parser that holds the [Exec] of
    [a.desktop]. *)
Lemma exec_of_file_read_witness :
  (py "exec" ∉ ([] : list (str * str)).*1)
  /\ Forall (fun sec : str * list (str * str) => sec.1 <> py "Desktop Entry") []
  /\ config_get_exec
       (read_doc ([] ++ (py "Desktop Entry",
                         [(py "name", py "Shell")] ++ (py "exec", py "sh -c true") :: [])
                     :: [])
          (read_doc [(py "Desktop Entry", [(py "name", py "A"); (py "exec", py "/bin/true")])]
             new_config))
     = Some (py "sh -c true").
Proof.
  assert (H1 : py "exec" ∉ ([] : list (str * str)).*1) by apply not_elem_of_nil.
  assert (H2 : Forall (fun sec : str * list (str * str) => sec.1 <> py "Desktop Entry") [])
    by constructor.
  split; [exact H1|]. split; [exact H2|].
  exact (exec_of_file_read [] [] [(py "name", py "Shell")] [] (py "sh -c true") _ H1 H2).
Defined.

(** X12 at [b.desktop], read by a parser that holds the [Exec] of
    [a.desktop]. *)
Lemma exec_survives_reading_witness :
  Forall (fun sec : str * list (str * str) => py "exec" ∉ sec.2.*1)
    [(py "Desktop Entry", [(py "name", py "B")])]
  /\ config_get_exec
       (read_doc [(py "Desktop Entry", [(py "name", py "A"); (py "exec", py "/bin/true")])]
          new_config)
     = Some (py "/bin/true")
  /\ config_get_exec
       (read_doc [(py "Desktop Entry", [(py "name", py "B")])]
          (read_doc [(py "Desktop Entry", [(py "name", py "A"); (py "exec", py "/bin/true")])]
             new_config))
     = Some (py "/bin/true").
Proof.
  assert (H1 : Forall (fun sec : str * list (str * str) => py "exec" ∉ sec.2.*1)
                 [(py "Desktop Entry", [(py "name", py "B")])])
    by (constructor; [absent|constructor]).
  assert (H2 : config_get_exec
                 (read_doc [(py "Desktop Entry",
                             [(py "name", py "A"); (py "exec", py "/bin/true")])]
                    new_config)
               = Some (py "/bin/true")) by reflexivity.
  split; [exact H1|]. split; [exact H2|].
  exact (exec_survives_reading _ _ _ H1 H2).
Defined.

(** X13 at [garbled.desktop], scanned before [sh.desktop]. *)
Lemma malformed_file_reported_witness :
  content garbled_desktop
    = Malformed []
        (py "File contains no section headers." ++ nl
         ++ py "file: '/usr/share/applications/garbled.desktop', line: 1" ++ nl
         ++ py "'Exec=foo\n'")
  /\ scan words user_world [garbled_desktop; sh_desktop] new_config []
     = inr [{| location := py "/usr/share/applications/garbled.desktop";
               reason := Some (py "File contains no section headers.");
               exec := None; full_exec := None |}].
Proof.
  split; [reflexivity|].
  destruct (malformed_file_reported words user_world garbled_desktop [] _
              [sh_desktop] new_config [] eq_refl) as [-> _].
  reflexivity.
Defined.

(** X14 at [old.desktop], whose [oldtool] is not on the search path. *)
Lemma command_judged_by_which_witness :
  config_get_exec
    (read_doc [(py "Desktop Entry", [(py "exec", py " oldtool --start "); (py "icon", py "old")])]
       new_config)
    = Some (py " oldtool --start ")
  /\ words (strip (py " oldtool --start ")) = inr [py "oldtool"; py "--start"]
  /\ resolve_exec [py "oldtool"; py "--start"] = inr (py "oldtool")
  /\ which (py "oldtool") user_world = None
  /\ scan words user_world [oldtool_desktop] new_config []
     = inr [{| location := py "/usr/share/applications/old.desktop";
               reason := Some (py "Executable not found in $PATH.");
               exec := Some (py "oldtool");
               full_exec := Some (py "oldtool --start") |}].
Proof.
  split; [reflexivity|]. split; [reflexivity|]. split; [reflexivity|].
  split; [reflexivity|].
  rewrite (command_judged_by_which words user_world oldtool_desktop new_config
             (read_doc [(py "Desktop Entry",
                         [(py "exec", py " oldtool --start "); (py "icon", py "old")])]
                new_config)
             (py " oldtool --start ") (py "oldtool") [py "oldtool"; py "--start"] [] []
             eq_refl eq_refl eq_refl eq_refl).
  - reflexivity.
  - intros [t Ht]. discriminate Ht.
  - intros [t Ht]. discriminate Ht.
Defined.

(** X15 at [a.desktop], whose [/bin/true] exists. *)
Lemma absolute_path_judged_by_exists_witness :
  config_get_exec
    (read_doc [(py "Desktop Entry", [(py "name", py "A"); (py "exec", py "/bin/true")])]
       new_config)
    = Some (py "/bin/true")
  /\ resolve_exec [py "/bin/true"] = inr (47 :: py "bin/true")
  /\ path_exists (py "/bin/true") user_world = true
  /\ scan words user_world [a_desktop] new_config [] = inr [].
Proof.
  split; [reflexivity|]. split; [reflexivity|]. split; [reflexivity|].
  rewrite (absolute_path_judged_by_exists words user_world a_desktop new_config
             (read_doc [(py "Desktop Entry",
                         [(py "name", py "A"); (py "exec", py "/bin/true")])]
                new_config)
             (py "/bin/true") (py "/bin/true") (py "bin/true") [py "/bin/true"] [] []
             eq_refl eq_refl eq_refl eq_refl eq_refl).
  reflexivity.
Defined.

End ScanRuns.

(** ** The helper client *)

Section ClientMore.
Import Eff Client.
Context {W : Type} `{FileSystem W}.
Variables python script : str.

Lemma helper_kept_refl (s : state W) : helper_kept s s.
Proof. by left. Qed.

Lemma helper_kept_trans (s1 s2 s3 : state W) :
  helper_kept s1 s2 -> helper_kept s2 s3 -> helper_kept s1 s3.
Proof.
  intros [[Hm1 Hl1]|(Hn1 & Hs1 & Hl1)] [[Hm2 Hl2]|(Hn2 & Hs2 & Hl2)].
  - left. split; congruence.
  - right. split; [congruence|]. split; [done|]. congruence.
  - right. split; [done|]. split; [by rewrite Hm2|]. congruence.
  - rewrite Hn2 in Hs1. by destruct Hs1.
Qed.

Ltac frame_cases :=
  repeat (case_match; simpl in *; simplify_eq);
  repeat split; simpl;
  try first
    [ done
    | left; split; [done|]; by rewrite ?length_insert
    | right; split; [done|]; split; [done|];
      rewrite ?length_insert, ?length_app; simpl; lia ].

(** What [remove_file] leaves alone, however it ends. *)
Lemma remove_file_frame (filename : str) (s : state W) :
  helper_kept s (final (remove_file python script filename s))
  /\ same_terminal s (final (remove_file python script filename s)).
Proof.
  unfold same_terminal, helper_kept, remove_file, unlink_fallback,
    privilaged_subprocess, bind, popen_piped, pipe_write, pipe_readline,
    log_error, modify, ret.
  frame_cases.
Qed.

(** X16: how [remove_file] ends.  When the direct [unlink] succeeds the
    result is [True] and nothing but the file system changes: the helper is
    neither created nor written to.  An error other than [PermissionError]
    is raised as it is, the state unchanged.  On [PermissionError] the file
    system is left as it is by this process, at most one process is created,
    and none when a helper is cached. *)
Theorem remove_file_outcomes (filename : str) (s : state W) :
  match path_unlink filename (world s) with
  | inr w' =>
      remove_file python script filename s = Return (Some true) (set_world w' s)
  | inl PermissionError =>
      helper_kept s (final (remove_file python script filename s))
      /\ world (final (remove_file python script filename s)) = world s
      /\ (is_Some (memo s) ->
          List.length (children (final (remove_file python script filename s)))
          = List.length (children s))
  | inl e => remove_file python script filename s = Raise (OSError e) s
  end.
Proof.
  pose proof (remove_file_frame filename s) as [Hk _].
  destruct (path_unlink filename (world s)) as [e|w'] eqn:Hun.
  - destruct e; try (unfold remove_file; by rewrite Hun).
    split; [exact Hk|]. split.
    + unfold remove_file. rewrite Hun.
      unfold unlink_fallback, privilaged_subprocess, bind, popen_piped, pipe_write,
        pipe_readline, log_error, modify, ret.
      repeat (case_match; simpl in *; simplify_eq); done.
    + intros [p Hp]. destruct Hk as [[_ Hl]|(Hn & _)]; [exact Hl|congruence].
  - unfold remove_file. by rewrite Hun.
Qed.

(** X17: a helper whose output has ended is read as a failure, not as an
    error.  With a cached helper that takes the request but whose output
    delivers nothing more, [remove_file] returns [False] and logs an empty
    reason when the output is closed, and waits for ever when it is not. *)
Theorem silent_helper
    (filename : str) (s : state W) (p : Popen) (n : nat) (c : child) :
  path_unlink filename (world s) = inl PermissionError ->
  memo s = Some p -> stdin p = Some n -> stdout p = Some n ->
  children s !! n = Some c -> gone c = false -> pending c = [] ->
  remove_file python script filename s =
    let s1 :=
      set_children
        (<[n := {| argv := argv c;
                   received := received c ++ [py "UNLINK " ++ filename ++ [10]];
                   pending := []; eof := eof c; gone := false |}]> (children s)) s in
    if eof c
    then Return (Some false) (set_errors (errors s ++ [py "Failed to unlink file. "]) s1)
    else Blocked s1.
Proof.
  intros Hperm Hmemo Hin Hout Hc Hgone Hpend.
  pose proof (lookup_lt_Some _ _ _ Hc) as Hlt.
  unfold remove_file. rewrite Hperm.
  unfold unlink_fallback, bind, privilaged_subprocess. rewrite Hmemo, Hin, Hout.
  unfold pipe_write. rewrite Hc, Hgone.
  unfold pipe_readline. simpl children.
  rewrite list_lookup_insert_eq by exact Hlt. simpl pending. rewrite Hpend.
  unfold nl. rewrite <- app_assoc. simpl eof.
  destruct (eof c); reflexivity.
Qed.

(** A helper that no longer reads makes [remove_file] raise
    [BrokenPipeError]; no line is read and nothing is logged. *)
Lemma gone_helper
    (filename : str) (s : state W) (p : Popen) (n : nat) (c : child) :
  path_unlink filename (world s) = inl PermissionError ->
  memo s = Some p -> stdin p = Some n ->
  children s !! n = Some c -> gone c = true ->
  remove_file python script filename s = Raise (OSError BrokenPipeError) s.
Proof.
  intros Hperm Hmemo Hin Hc Hgone.
  unfold remove_file. rewrite Hperm.
  unfold unlink_fallback, bind, privilaged_subprocess. rewrite Hmemo, Hin.
  unfold pipe_write. by rewrite Hc, Hgone.
Qed.

End ClientMore.

(** ** The remediator *)

Section RemediatorMore.
Import Eff Client Scanner Remediator.
Context {W : Type} `{FileSystem W}.
Variables python script : str.
Variable relative_to_home : str -> option str.

(** The report only prints. *)
Lemma report_frame (entry : Entry) (s : state W) :
  exists s1, report relative_to_home entry s = Return tt s1
             /\ s1 = set_printed (printed s1) s.
Proof.
  unfold report, bind, print, modify, ret.
  destruct (relative_to_home (location entry)), (full_exec entry) as [v|];
    destruct (negb (bool_decide (_ = exec entry)));
    simpl; eexists; split; reflexivity.
Qed.

Lemma input_cases (text : str) (s : state W) :
  (exists line later,
      typed s = line :: later
      /\ input text s
         = Return line (set_typed later (set_printed (printed s ++ [text]) s)))
  \/ (typed s = []
      /\ input text s = Raise EOFError (set_printed (printed s ++ [text]) s)).
Proof.
  unfold input. destruct (typed s) as [|line later]; [right|left]; eauto.
Qed.

(** X18: over the whole loop, whatever the entries and the answers, at most
    one helper process is created, and none when one is cached at the
    start. *)
Theorem one_helper_per_run (entries : list Entry) (d e : nat) (s : state W) :
  helper_kept s (final (visit python script relative_to_home entries d e s)).
Proof.
  revert d e s. induction entries as [|entry rest IH]; intros d e s; simpl.
  { apply helper_kept_refl. }
  unfold bind.
  destruct (report_frame entry s) as (s1 & -> & Hs1).
  destruct (input_cases prompt s1) as [(line & later & _ & ->)|(_ & ->)].
  2: { left. rewrite Hs1. by split. }
  set (s2 := set_typed later (set_printed (printed s1 ++ [prompt]) s1)).
  assert (Hk : helper_kept s s2) by (left; subst s2; rewrite Hs1; by split).
  destruct (eqs (lower line) (py "q") || eqs (lower line) (py "quit")); [exact Hk|].
  destruct (eqs (lower line) (py "e") || eqs (lower line) (py "edit")).
  { unfold edit_file at 1.
    destruct (editor_run s2 _) as [err|code]; [exact Hk|].
    eapply helper_kept_trans; [exact Hk|apply IH]. }
  destruct (eqs (lower line) (py "d") || eqs (lower line) (py "delete")).
  { pose proof (remove_file_frame python script (location entry) s2) as [Hr _].
    destruct (remove_file python script (location entry) s2) as [r s3|err s3|s3];
      simpl in Hr.
    - eapply helper_kept_trans; [exact Hk|].
      eapply helper_kept_trans; [exact Hr|apply IH].
    - eapply helper_kept_trans; [exact Hk|exact Hr].
    - eapply helper_kept_trans; [exact Hk|exact Hr]. }
  eapply helper_kept_trans; [exact Hk|apply IH].
Qed.

(** X19: the accounts of the loop.  When it is left in the ordinary way,
    it has taken at most one answer per entry, the counters have not gone
    down, and together they have grown by no more than the number of
    answers taken: no more files are counted as deleted or edited than
    entries were found. *)
Theorem loop_accounts
    (entries : list Entry) (d e d' e' : nat) (s s1 : state W) :
  visit python script relative_to_home entries d e s = Return (d', e') s1 ->
  exists used : list str,
    typed s = used ++ typed s1
    /\ (List.length used <= List.length entries)%nat
    /\ (d <= d')%nat /\ (e <= e')%nat
    /\ (d' + e' <= d + e + List.length used)%nat.
Proof.
  revert d e s. induction entries as [|entry rest IH]; intros d e s; simpl.
  { intros [= <- <- <-]. exists []. simpl. repeat split; lia. }
  unfold bind.
  destruct (report_frame entry s) as (s0 & -> & Hs0).
  destruct (input_cases prompt s0) as [(line & later & Ht & ->)|(_ & ->)];
    [|discriminate].
  assert (Hts : typed s = line :: later) by (rewrite Hs0 in Ht; exact Ht).
  set (s2 := set_typed later (set_printed (printed s0 ++ [prompt]) s0)).
  assert (Hfinish : forall dd ee,
            (d <= dd <= S d)%nat -> (e <= ee <= S e)%nat -> (dd + ee <= S (d + e))%nat ->
            forall s3, typed s3 = later ->
            visit python script relative_to_home rest dd ee s3 = Return (d', e') s1 ->
            exists used : list str,
              typed s = used ++ typed s1
              /\ (List.length used <= S (List.length rest))%nat
              /\ (d <= d')%nat /\ (e <= e')%nat
              /\ (d' + e' <= d + e + List.length used)%nat).
  { intros dd ee Hd He Hsum s3 Hs3 Hv.
    destruct (IH _ _ _ Hv) as (used & Hu & Hlen & Hd' & He' & Hsum').
    exists (line :: used). rewrite Hts. simpl. rewrite <- Hu, Hs3.
    repeat split; lia. }
  destruct (eqs (lower line) (py "q") || eqs (lower line) (py "quit")).
  { intros [= <- <- <-]. exists [line]. rewrite Hts. simpl.
    repeat split; lia. }
  destruct (eqs (lower line) (py "e") || eqs (lower line) (py "edit")).
  { unfold edit_file at 1.
    destruct (editor_run s2 _) as [err|code]; [discriminate|].
    intros Hv. apply (fun a b c t => Hfinish _ _ a b c _ t Hv);
      try done; destruct (code =? 0); lia. }
  destruct (eqs (lower line) (py "d") || eqs (lower line) (py "delete")).
  { pose proof (remove_file_frame python script (location entry) s2) as [_ [Hr _]].
    destruct (remove_file python script (location entry) s2) as [r s3|err s3|s3];
      [|discriminate|discriminate].
    simpl in Hr.
    intros Hv. apply (fun a b c t => Hfinish _ _ a b c _ t Hv);
      try exact Hr; destruct r as [[]|]; lia. }
  intros Hv. apply (fun a b c t => Hfinish _ _ a b c _ t Hv); try done; lia.
Qed.

(** X20: an answer that lowers to none of [q], [quit], [e], [edit], [d],
    [delete], the empty answer among them, passes the entry over.  When all
    entries are answered so, the loop ends with the counters as they were;
    no file is deleted, no editor and no helper is started, nothing is
    logged, and the answers are used up one per entry. *)
Theorem ignored_entries_untouched
    (entries : list Entry) (answers later : list str) (d e : nat) (s : state W) :
  typed s = answers ++ later ->
  List.length answers = List.length entries ->
  Forall (fun a => lower a ∉ [py "q"; py "quit"; py "e"; py "edit";
                              py "d"; py "delete"]) answers ->
  exists s1 : state W,
    visit python script relative_to_home entries d e s = Return (d, e) s1
    /\ world s1 = world s /\ children s1 = children s /\ memo s1 = memo s
    /\ errors s1 = errors s /\ typed s1 = later.
Proof.
  revert answers d e s.
  induction entries as [|entry rest IH]; intros answers d e s Ht Hlen Hall.
  { destruct answers; [|discriminate]. exists s. by repeat split. }
  destruct answers as [|line answers]; [discriminate|].
  apply Forall_cons in Hall as [Hline Hall]. injection Hlen as Hlen.
  simpl. unfold bind.
  destruct (report_frame entry s) as (s0 & -> & Hs0).
  destruct (input_cases prompt s0) as [(line' & later' & Ht' & ->)|(Ht' & _)];
    rewrite Hs0 in Ht'; simpl in Ht'; rewrite Ht in Ht'; [|discriminate].
  injection Ht' as <- <-.
  assert (Hno : forall word, word ∈ [py "q"; py "quit"; py "e"; py "edit";
                                     py "d"; py "delete"] ->
                             eqs (lower line) word = false).
  { intros word Hw. apply eqs_false. intros Heq. apply Hline. by rewrite Heq. }
  rewrite !Hno by (repeat first [apply list_elem_of_here | apply list_elem_of_further]).
  simpl orb. cbv iota.
  destruct (IH answers d e
              (set_typed (answers ++ later) (set_printed (printed s0 ++ [prompt]) s0))
              eq_refl Hlen Hall)
    as (s1 & Hv & Hw & Hc & Hm & He & Hty).
  exists s1. split; [exact Hv|].
  rewrite Hw, Hc, Hm, He, Hty. rewrite Hs0. by repeat split.
Qed.

(** X21: an answer that lowers to [q] or [quit] ends the loop at once.  The
    counters are returned as they are, the entry and all entries after it
    are left alone, no further answer is taken. *)
Theorem quit_stops_run
    (entry : Entry) (rest : list Entry) (answer : str) (later : list str)
    (d e : nat) (s : state W) :
  typed s = answer :: later ->
  lower answer = py "q" \/ lower answer = py "quit" ->
  exists s1 : state W,
    visit python script relative_to_home (entry :: rest) d e s = Return (d, e) s1
    /\ world s1 = world s /\ children s1 = children s /\ memo s1 = memo s
    /\ errors s1 = errors s /\ typed s1 = later.
Proof.
  intros Ht Hq. simpl. unfold bind.
  destruct (report_frame entry s) as (s0 & -> & Hs0).
  destruct (input_cases prompt s0) as [(line' & later' & Ht' & ->)|(Ht' & _)];
    rewrite Hs0 in Ht'; simpl in Ht'; rewrite Ht in Ht'; [|discriminate].
  injection Ht' as <- <-.
  assert (Hor : eqs (lower answer) (py "q") || eqs (lower answer) (py "quit") = true).
  { apply orb_true_iff. destruct Hq as [Hq|Hq]; [left|right]; by apply eqs_true. }
  rewrite Hor. eexists. split; [reflexivity|].
  simpl. rewrite Hs0. by repeat split.
Qed.

End RemediatorMore.

Section MainRuns.
Import Eff Client Scanner Remediator Examples.

(** X17 at a helper whose output has ended. *)
Lemma silent_helper_witness :
  path_unlink (py "/usr/share/applications/old.desktop") (world main_ended)
    = inl PermissionError
  /\ memo main_ended = Some first_handle
  /\ children main_ended !! 0%nat = Some ended_child
  /\ remove_file python script (py "/usr/share/applications/old.desktop") main_ended
     = Return (Some false)
         (set_errors [py "Failed to unlink file. "]
            (set_children
               [{| argv := argv ended_child;
                   received := [py "UNLINK /usr/share/applications/old.desktop" ++ [10]];
                   pending := []; eof := true; gone := false |}] main_ended)).
Proof.
  assert (H1 : path_unlink (py "/usr/share/applications/old.desktop") (world main_ended)
               = inl PermissionError) by (vm_compute; reflexivity).
  assert (H2 : memo main_ended = Some first_handle) by reflexivity.
  assert (H3 : children main_ended !! 0%nat = Some ended_child) by reflexivity.
  split; [exact H1|]. split; [exact H2|]. split; [exact H3|].
  rewrite (silent_helper python script (py "/usr/share/applications/old.desktop")
             main_ended first_handle 0%nat ended_child
             H1 H2 eq_refl eq_refl H3 eq_refl eq_refl).
  reflexivity.
Defined.

(** The same at a concrete helper that no longer reads. *)
Lemma gone_helper_example :
  path_unlink (py "/usr/share/applications/old.desktop") (world main_gone)
    = inl PermissionError
  /\ children main_gone !! 0%nat = Some gone_child
  /\ remove_file python script (py "/usr/share/applications/old.desktop") main_gone
     = Raise (OSError BrokenPipeError) main_gone.
Proof.
  assert (H1 : path_unlink (py "/usr/share/applications/old.desktop") (world main_gone)
               = inl PermissionError) by (vm_compute; reflexivity).
  assert (H3 : children main_gone !! 0%nat = Some gone_child) by reflexivity.
  split; [exact H1|]. split; [exact H3|].
  exact (gone_helper python script (py "/usr/share/applications/old.desktop")
           main_gone first_handle 0%nat gone_child
           H1 eq_refl eq_refl H3 eq_refl).
Defined.

(** X19 at the run in which the user deletes, edits and quits. *)
Lemma loop_accounts_witness :
  visit python script home_relative [broken_old; broken_mine; broken_b] 0 0 user_acts
    = Return (1%nat, 1%nat)
        (final (visit python script home_relative
                  [broken_old; broken_mine; broken_b] 0 0 user_acts))
  /\ exists used : list str,
       typed user_acts
         = used ++ typed (final (visit python script home_relative
                                   [broken_old; broken_mine; broken_b] 0 0 user_acts))
       /\ (List.length used <= 3)%nat
       /\ (0 <= 1)%nat /\ (0 <= 1)%nat
       /\ (1 + 1 <= 0 + 0 + List.length used)%nat.
Proof.
  assert (Hv : visit python script home_relative [broken_old; broken_mine; broken_b]
                 0 0 user_acts
               = Return (1%nat, 1%nat)
                   (final (visit python script home_relative
                             [broken_old; broken_mine; broken_b] 0 0 user_acts)))
    by (vm_compute; reflexivity).
  split; [exact Hv|].
  exact (loop_accounts python script home_relative _ _ _ _ _ _ _ Hv).
Defined.

(** X20 at a run in which three entries are passed over. *)
Lemma ignored_entries_untouched_witness :
  typed user_passes = [[]; py "x"; py "Ignore"] ++ [py "d"]
  /\ Forall (fun a => lower a ∉ [py "q"; py "quit"; py "e"; py "edit";
                                 py "d"; py "delete"])
       [[]; py "x"; py "Ignore"]
  /\ exists s1 : state Sim.world,
       visit python script home_relative [broken_old; broken_mine; broken_b] 0 0
         user_passes = Return (0%nat, 0%nat) s1
       /\ world s1 = world user_passes /\ children s1 = children user_passes
       /\ memo s1 = memo user_passes /\ errors s1 = errors user_passes
       /\ typed s1 = [py "d"].
Proof.
  assert (Hall : Forall (fun a => lower a ∉ [py "q"; py "quit"; py "e"; py "edit";
                                            py "d"; py "delete"])
                   [[]; py "x"; py "Ignore"]).
  { repeat constructor; vm_compute;
      repeat (apply not_elem_of_cons; split; [discriminate|]); apply not_elem_of_nil. }
  split; [reflexivity|]. split; [exact Hall|].
  exact (ignored_entries_untouched python script home_relative
           [broken_old; broken_mine; broken_b] [[]; py "x"; py "Ignore"] [py "d"]
           0 0 user_passes eq_refl eq_refl Hall).
Defined.

(** X21 at a run in which the user quits at the first of three entries. *)
Lemma quit_stops_run_witness :
  typed user_quits = py "QUIT" :: [py "d"]
  /\ (lower (py "QUIT") = py "q" \/ lower (py "QUIT") = py "quit")
  /\ exists s1 : state Sim.world,
       visit python script home_relative (broken_old :: [broken_mine; broken_b]) 0 0
         user_quits = Return (0%nat, 0%nat) s1
       /\ world s1 = world user_quits /\ children s1 = children user_quits
       /\ memo s1 = memo user_quits /\ errors s1 = errors user_quits
       /\ typed s1 = [py "d"].
Proof.
  assert (Hq : lower (py "QUIT") = py "q" \/ lower (py "QUIT") = py "quit")
    by (right; reflexivity).
  split; [reflexivity|]. split; [exact Hq|].
  exact (quit_stops_run python script home_relative broken_old
           [broken_mine; broken_b] (py "QUIT") [py "d"] 0 0 user_quits eq_refl Hq).
Defined.

(** X18 at the run in which the user deletes two entries that need the
    helper: one process exists at the end. *)
Example two_deletions_one_helper :
  List.length
    (children (final (visit python script home_relative [broken_old; broken_old] 0 0
                        (set_typed [py "d"; py "d"] main0)))) = 1%nat.
Proof. vm_compute. reflexivity. Qed.

End MainRuns.
